(** * The receipt pipeline [full_deployment]

    A shallow embedding of [src/recommender/full_deployment.py]: the one
    function of the repository, a sequence of validation gates, a bounded
    retry loop around OCR and field extraction, a backup-then-write append
    to a CSV dataset and two recommender calls.

    What is Python or library behaviour is written out here:
    - exceptions are values of [exn]; a statement either returns or raises
      ([result]); [try_except] is Python's [try]/[except];
    - the file system is a finite map from paths to nodes; [os.path.exists],
      [shutil.copyfile], the file access of [pd.read_csv] and [df.to_csv]
      act on it;
    - a pandas frame is its column labels and its rows of cells;
      [df.empty], [df[labels]], [isnull], [any], the comparison of two
      column indexes and [pd.concat] are defined on that;
    - [re.fullmatch] is a matcher by derivatives over the pattern's syntax
      tree.

    What the repository imports and does not contain is an interface,
    [Externals]: the OCR model, the field extractor, the two recommenders
    and the text format of pandas' CSV reader and writer.

    Left out: the [print] calls and the warning filter of line 61, which
    neither return a value the function uses nor touch a file. *)

From Stdlib Require Import String Ascii List Bool Arith Lia.
From stdpp Require Import base gmap strings list fin_maps.
Import ListNotations.

Local Open Scope string_scope.
Local Open Scope list_scope.
Local Open Scope nat_scope.

(** ** Python exceptions *)

(** The exception classes the pipeline raises or tells apart.  Every class
    here derives from [Exception]; [JSONDecodeError] derives from
    [ValueError], so that an [except json.JSONDecodeError] clause does not
    catch a plain [ValueError]. *)
Inductive pyclass : Type :=
| FileNotFoundError
| ValueError
| RuntimeError
| UnboundLocalError
| JSONDecodeError
| OSError
| SameFileError
| OtherException.

(** An exception is its class and its message.  The messages of the
    pipeline's own [raise] statements are kept structured: an f-string that
    formats a caught exception [e] carries [e]. *)
Inductive exn : Type :=
| Exn (cls : pyclass) (msg : message)
with message : Type :=
| Text (s : string)
| Dataset_file_not_found (dataset_path : string)
| Failed_to_read_dataset (e : exn)
| DataFrame_is_empty
| Dataset_missing_required_columns (missing : gset string)
| Dataset_contains_missing_values
| Email_is_not_valid
| Model_parameter_required
| VED_returned_no_data
| Failed_to_decode_JSON (attempts : nat) (e : exn)
| Columns_do_not_match
| Failed_to_create_backup (e : exn)
| Failed_to_save_updated_dataset (e : exn)
| Failed_to_generate_recommendations (e : exn).

Definition exn_class (e : exn) : pyclass :=
  match e with Exn cls _ => cls end.

(** [isinstance(e, json.JSONDecodeError)] *)
Definition isinstance_JSONDecodeError (e : exn) : bool :=
  match exn_class e with JSONDecodeError => true | _ => false end.

(** [isinstance(e, Exception)]: all the classes of [pyclass] are. *)
Definition isinstance_Exception (e : exn) : bool := true.

Inductive result (A : Type) : Type :=
| Returns (a : A)
| Raises (e : exn).
Arguments Returns {A} a.
Arguments Raises {A} e.

(** ** pandas frames *)

(** A cell holds a value or is null (NaN): [None]. *)
Definition cell : Type := option string.

Record Frame (A : Type) : Type := mkFrame {
  columns : list string;
  rows : list (list A)
}.
Arguments mkFrame {A} columns rows.
Arguments columns {A} f.
Arguments rows {A} f.

Definition DataFrame : Type := Frame cell.

(** [df.empty]: one of the two axes has length 0. *)
Definition df_empty {A} (df : Frame A) : bool :=
  (length (columns df) =? 0) || (length (rows df) =? 0).

(** Position of a label in a column index (the first one). *)
Fixpoint get_loc (label : string) (cols : list string) : option nat :=
  match cols with
  | [] => None
  | c :: cols' => if String.eqb c label then Some 0 else option_map S (get_loc label cols')
  end.

(** The cell of a row under a label; a row shorter than the header is
    padded with nulls, as the CSV reader does. *)
Definition cell_at (cols : list string) (row : list cell) (label : string) : cell :=
  match get_loc label cols with
  | Some i => nth i row None
  | None => None
  end.

(** [df[labels]] with a list-like of labels: [KeyError] when a label is not
    a column, else the frame of those columns in the order asked for. *)
Definition getitem (df : DataFrame) (labels : list string) : result DataFrame :=
  if forallb (fun l => match get_loc l (columns df) with Some _ => true | None => false end) labels
  then Returns (mkFrame labels (map (fun row => map (cell_at (columns df) row) labels) (rows df)))
  else Raises (Exn OtherException (Text "KeyError")).

(** [pd.isnull] on a cell *)
Definition cell_isnull (c : cell) : bool :=
  match c with Some _ => false | None => true end.

(** [df.isnull()] *)
Definition isnull (df : DataFrame) : Frame bool :=
  mkFrame (columns df) (map (map cell_isnull) (rows df)).

(** [DataFrame.any()]: per column, whether some row is true there. *)
Definition frame_any (f : Frame bool) : list (string * bool) :=
  imap (fun i c => (c, existsb (fun row => nth i row false) (rows f))) (columns f).

(** [Series.any()] *)
Definition series_any (s : list (string * bool)) : bool :=
  existsb snd s.

(** [a == b] on two column indexes: element by element; indexes of
    different lengths cannot be compared and pandas raises. *)
Definition index_eq (a b : list string) : result (list bool) :=
  if length a =? length b
  then Returns (map (fun p => String.eqb (fst p) (snd p)) (combine a b))
  else Raises (Exn ValueError (Text "Lengths must match to compare")).

(** Python's [all] *)
Definition py_all (l : list bool) : bool := forallb id l.

(** [pd.concat([a, b], ignore_index=True)]: when the two column indexes are
    equal they are kept and the rows of [b] follow those of [a]; otherwise
    the columns are the union, those of [a] first, and every row is
    realigned, null where it has no such column. *)
Definition pd_concat (a b : DataFrame) : DataFrame :=
  if decide (columns a = columns b)
  then mkFrame (columns a) (rows a ++ rows b)
  else
    let cols := columns a ++ filter (fun c => get_loc c (columns a) = None) (columns b) in
    mkFrame cols
      (map (fun row => map (cell_at (columns a) row) cols) (rows a) ++
       map (fun row => map (cell_at (columns b) row) cols) (rows b)).

(** ** The file system *)

Inductive node : Type :=
| Dir
| File (writable : bool) (content : string).

Abbreviation filesystem := (gmap string node).

(** [os.path.exists(path)] *)
Definition os_path_exists (files : filesystem) (path : string) : bool :=
  match files !! path with Some _ => true | None => false end.

(** Opening a path for reading and reading it whole. *)
Definition read_file (files : filesystem) (path : string) : result string :=
  match files !! path with
  | None => Raises (Exn FileNotFoundError (Text path))
  | Some Dir => Raises (Exn OSError (Text "Is a directory"))
  | Some (File _ content) => Returns content
  end.

(** Opening a path for writing (truncating or creating it) and writing
    [content]: refused on a directory and on a read-only file. *)
Definition write_file (files : filesystem) (path content : string) : result filesystem :=
  match files !! path with
  | Some Dir => Raises (Exn OSError (Text "Is a directory"))
  | Some (File false _) => Raises (Exn OSError (Text "Permission denied"))
  | _ => Returns (<[path := File true content]> files)
  end.

(** [shutil.copyfile(src, dst)] *)
Definition shutil_copyfile (files : filesystem) (src dst : string) : result filesystem :=
  if String.eqb src dst then Raises (Exn SameFileError (Text src))
  else match read_file files src with
       | Raises e => Raises e
       | Returns content => write_file files dst content
       end.

(** ** Regular expressions and [re.fullmatch] *)

Inductive regex : Type :=
| Never
| Eps
| Class (p : ascii -> bool)
| Cat (r1 r2 : regex)
| Alt (r1 r2 : regex)
| Star (r : regex).

(** [r+], [r?] and [r{2,}] *)
Definition Plus (r : regex) : regex := Cat r (Star r).
Definition Opt (r : regex) : regex := Alt Eps r.
Definition AtLeast2 (r : regex) : regex := Cat r (Cat r (Star r)).

Fixpoint nullable (r : regex) : bool :=
  match r with
  | Never => false
  | Eps => true
  | Class _ => false
  | Cat r1 r2 => nullable r1 && nullable r2
  | Alt r1 r2 => nullable r1 || nullable r2
  | Star _ => true
  end.

Fixpoint deriv (c : ascii) (r : regex) : regex :=
  match r with
  | Never => Never
  | Eps => Never
  | Class p => if p c then Eps else Never
  | Cat r1 r2 =>
      if nullable r1 then Alt (Cat (deriv c r1) r2) (deriv c r2)
      else Cat (deriv c r1) r2
  | Alt r1 r2 => Alt (deriv c r1) (deriv c r2)
  | Star r1 => Cat (deriv c r1) (Star r1)
  end.

Fixpoint matches (r : regex) (s : list ascii) : bool :=
  match s with
  | [] => nullable r
  | c :: s' => matches (deriv c r) s'
  end.

(** [re.fullmatch(pattern, s) is not None]: the whole of [s] is in the
    language of the pattern. *)
Definition re_fullmatch (pattern : regex) (s : string) : bool :=
  matches pattern (list_ascii_of_string s).

(** [\w] on a [str] pattern: a character is a code point, here below 256;
    the alphanumerics of that range and the underscore. *)
Definition word_char (c : ascii) : bool :=
  let n := nat_of_ascii c in
  ((48 <=? n) && (n <=? 57)) || ((65 <=? n) && (n <=? 90)) || (n =? 95) ||
  ((97 <=? n) && (n <=? 122)) || (n =? 170) || ((178 <=? n) && (n <=? 179)) ||
  (n =? 181) || ((185 <=? n) && (n <=? 186)) || ((188 <=? n) && (n <=? 190)) ||
  ((192 <=? n) && (n <=? 214)) || ((216 <=? n) && (n <=? 246)) || (248 <=? n).

(** [[\.-]] *)
Definition dot_or_dash (c : ascii) : bool :=
  Ascii.eqb c "." || Ascii.eqb c "-".

Definition lit (a : ascii) : regex := Class (Ascii.eqb a).

(** [\w+([\.-]?\w+)*] *)
Definition dotted_words : regex :=
  Cat (Plus (Class word_char)) (Star (Cat (Opt (Class dot_or_dash)) (Plus (Class word_char)))).

(** [email_regex = r"^\w+([\.-]?\w+)*@\w+([\.-]?\w+)*(\.\w{2,})+$"]; under
    [fullmatch] the two anchors hold at the two ends of the subject and
    consume nothing. *)
Definition email_regex : regex :=
  Cat dotted_words
    (Cat (lit "@")
       (Cat dotted_words
          (Plus (Cat (lit ".") (AtLeast2 (Class word_char)))))).

(** ** What the pipeline imports *)

(** The four collaborators ([ocr_receipt], [extract_dict] imported as [ved],
    [recommend] as [pr], [cheap_proximity_rec] as [cc]) and the text format
    of pandas' CSV reader and writer are not part of the repository.  A
    collaborator has a state of its own, [World], may return or raise, and
    may answer differently from one call to the next.  The two recommenders
    are handed the dataset path and read the file system; no collaborator
    writes to it: the pipeline owns the dataset file during a run.

    [truth] is the truth value of the extractor's result ([not data]) and
    [pd_DataFrame] the frame built from it ([pd.DataFrame(data)]). *)
Class Externals : Type := {
  Model : Type;
  Struk : Type;
  Payload : Type;
  Products : Type;
  Recommendation : Type;
  Coordinate : Type;
  World : Type;
  ocr_receipt : string -> Model -> World -> result Struk * World;
  ved : Struk -> string -> string -> string -> World -> result Payload * World;
  truth : Payload -> result bool;
  pd_DataFrame : Payload -> result DataFrame;
  pr : filesystem -> string -> string -> World -> result Products * World;
  cc : filesystem -> string -> string -> Products -> Coordinate -> Coordinate ->
       World -> result Recommendation * World;
  csv_parse : string -> result DataFrame;
  csv_format : DataFrame -> string
}.

Section Pipeline.
Context `{Ext : Externals}.

(** The calls made to the collaborators, with what each answered. *)
Inductive event : Type :=
| Call_ocr_receipt (test_path : string) (model : Model) (r : result Struk)
| Call_ved (struk : Struk) (key_path uid email : string) (r : result Payload)
| Call_pr (dataset_path uid : string) (r : result Products)
| Call_cc (dataset uid : string) (product_list : Products) (lon lat : Coordinate)
          (r : result Recommendation).

Record state : Type := mkState {
  files : filesystem;
  world : World;
  trace : list event
}.

(** A statement: from a state, it returns or raises, in a new state. *)
Definition M (A : Type) : Type := state -> result A * state.

Definition ret {A} (a : A) : M A := fun st => (Returns a, st).

Definition raise {A} (e : exn) : M A := fun st => (Raises e, st).

Definition bind {A B} (m : M A) (k : A -> M B) : M B :=
  fun st =>
    match m st with
    | (Returns a, st') => k a st'
    | (Raises e, st') => (Raises e, st')
    end.

Definition lift {A} (r : result A) : M A := fun st => (r, st).

(** [try: body  except C as e: handler]: an exception of [body] that the
    clause catches runs the handler, in the state the body left. *)
Definition try_except {A} (body : M A) (catches : exn -> bool) (handler : exn -> M A) : M A :=
  fun st =>
    match body st with
    | (Returns a, st') => (Returns a, st')
    | (Raises e, st') => if catches e then handler e st' else (Raises e, st')
    end.

Notation "'let*' x := m 'in' k" := (bind m (fun x => k))
  (at level 10, x name, m at level 100, k at level 200).

(** *** The statements that touch the state *)

Definition exists_path (path : string) : M bool :=
  fun st => (Returns (os_path_exists (files st) path), st).

(** [pd.read_csv(path)] *)
Definition pd_read_csv (path : string) : M DataFrame :=
  fun st =>
    match read_file (files st) path with
    | Raises e => (Raises e, st)
    | Returns content => (csv_parse content, st)
    end.

(** [df.to_csv(path, index=False)] *)
Definition to_csv (df : DataFrame) (path : string) : M unit :=
  fun st =>
    match write_file (files st) path (csv_format df) with
    | Raises e => (Raises e, st)
    | Returns files' => (Returns tt, mkState files' (world st) (trace st))
    end.

Definition copyfile (src dst : string) : M unit :=
  fun st =>
    match shutil_copyfile (files st) src dst with
    | Raises e => (Raises e, st)
    | Returns files' => (Returns tt, mkState files' (world st) (trace st))
    end.

Definition call_ocr_receipt (test_path : string) (model : Model) : M Struk :=
  fun st =>
    let (r, w) := ocr_receipt test_path model (world st) in
    (r, mkState (files st) w (trace st ++ [Call_ocr_receipt test_path model r])).

Definition call_ved (struk : Struk) (key_path uid email : string) : M Payload :=
  fun st =>
    let (r, w) := ved struk key_path uid email (world st) in
    (r, mkState (files st) w (trace st ++ [Call_ved struk key_path uid email r])).

Definition call_pr (dataset_path uid : string) : M Products :=
  fun st =>
    let (r, w) := pr (files st) dataset_path uid (world st) in
    (r, mkState (files st) w (trace st ++ [Call_pr dataset_path uid r])).

Definition call_cc (dataset uid : string) (product_list : Products) (lon lat : Coordinate)
  : M Recommendation :=
  fun st =>
    let (r, w) := cc (files st) dataset uid product_list lon lat (world st) in
    (r, mkState (files st) w (trace st ++ [Call_cc dataset uid product_list lon lat r])).

(** *** [full_deployment], statement by statement *)

(** Lines 34-40: the dataset exists and is readable. *)
Definition load_dataset (dataset_path : string) : M DataFrame :=
  let* found := exists_path dataset_path in
  if negb found then raise (Exn FileNotFoundError (Dataset_file_not_found dataset_path))
  else
    try_except (pd_read_csv dataset_path) isinstance_Exception
      (fun e => raise (Exn ValueError (Failed_to_read_dataset e))).

Definition required_columns : gset string := {[ "uid"; "long"; "lat" ]}.

(** Lines 43-49: the structure of the dataset.  [required_columns] is a set;
    as an indexer ([df[required_columns]]) it stands for the list of its
    elements, which is how pandas before 2.0 takes it. *)
Definition validate_dataset (df : DataFrame) : M unit :=
  if df_empty df then raise (Exn ValueError DataFrame_is_empty)
  else if negb (bool_decide (required_columns ⊆ list_to_set (columns df)))
  then raise (Exn ValueError
                (Dataset_missing_required_columns (required_columns ∖ list_to_set (columns df))))
  else
    let* sub := lift (getitem df (elements required_columns)) in
    if series_any (frame_any (isnull sub))
    then raise (Exn ValueError Dataset_contains_missing_values)
    else ret tt.

(** Lines 52-54: the format of the email. *)
Definition validate_email (email : string) : M unit :=
  if negb (re_fullmatch email_regex email)
  then raise (Exn ValueError Email_is_not_valid)
  else ret tt.

(** Lines 57-58: the model is there ([None] is Python's [None]). *)
Definition validate_model (model : option Model) : M Model :=
  match model with
  | None => raise (Exn ValueError Model_parameter_required)
  | Some m => ret m
  end.

Definition max_retries : nat := 3.

(** Lines 67-72: the body of the [try] of one attempt, up to the [break]. *)
Definition attempt_body (key_path test_path uid email : string) (model : Model) : M DataFrame :=
  let* struk := call_ocr_receipt test_path model in
  let* data := call_ved struk key_path uid email in
  let* t := lift (truth data) in
  if negb t then raise (Exn ValueError VED_returned_no_data)
  else lift (pd_DataFrame data).

(** Lines 65-77: the loop over [range(max_retries + 1)].  [Some data] is a
    [break] with [data] bound; [None] is the loop running out, which leaves
    [data] unbound. *)
Fixpoint for_attempt (attempts : list nat) (key_path test_path uid email : string)
  (model : Model) : M (option DataFrame) :=
  match attempts with
  | [] => ret None
  | attempt :: rest =>
      let* r :=
        try_except
          (let* data := attempt_body key_path test_path uid email model in ret (Some data))
          isinstance_JSONDecodeError
          (fun e =>
             if attempt =? max_retries
             then raise (Exn RuntimeError (Failed_to_decode_JSON (max_retries + 1) e))
             else ret None) in
      match r with
      | Some data => ret (Some data)
      | None => for_attempt rest key_path test_path uid email model
      end
  end.

(** Lines 64-77 *)
Definition perform_ocr (key_path test_path uid email : string) (model : Model)
  : M (option DataFrame) :=
  for_attempt (seq 0 (max_retries + 1)) key_path test_path uid email model.

(** Lines 80-81: the new data has the columns of the dataset.  Reading
    [data] when the loop left it unbound raises. *)
Definition validate_new_data (df : DataFrame) (data : option DataFrame) : M DataFrame :=
  match data with
  | None => raise (Exn UnboundLocalError (Text "data"))
  | Some data =>
      let* same := lift (index_eq (columns df) (columns data)) in
      if negb (py_all same) then raise (Exn ValueError Columns_do_not_match)
      else ret data
  end.

Definition backup_path_of (dataset_path : string) : string :=
  dataset_path +:+ ".backup".

(** Lines 84-89 *)
Definition backup_dataset (dataset_path : string) : M unit :=
  try_except (copyfile dataset_path (backup_path_of dataset_path)) isinstance_Exception
    (fun e => raise (Exn RuntimeError (Failed_to_create_backup e))).

(** Lines 92-97 *)
Definition append_and_save (df data : DataFrame) (dataset_path : string) : M unit :=
  try_except (to_csv (pd_concat df data) dataset_path) isinstance_Exception
    (fun e => raise (Exn RuntimeError (Failed_to_save_updated_dataset e))).

(** Lines 100-110 *)
Definition generate_recommendations (dataset_path uid : string) (lon lat : Coordinate)
  : M Recommendation :=
  try_except
    (let* test_rec := call_pr dataset_path uid in
     call_cc dataset_path uid test_rec lon lat)
    isinstance_Exception
    (fun e => raise (Exn RuntimeError (Failed_to_generate_recommendations e))).

Definition full_deployment (key_path test_path dataset_path uid email : string)
  (model : option Model) (lon lat : Coordinate) : M Recommendation :=
  let* df := load_dataset dataset_path in
  let* _ := validate_dataset df in
  let* _ := validate_email email in
  let* m := validate_model model in
  let* data := perform_ocr key_path test_path uid email m in
  let* data := validate_new_data df data in
  let* _ := backup_dataset dataset_path in
  let* _ := append_and_save df data dataset_path in
  generate_recommendations dataset_path uid lon lat.

End Pipeline.

(** ** Prefixes of [full_deployment]

    The function is one straight line of statements; to speak of a run that
    got as far as some line, these are its statements up to there. *)
Section Prefixes.
Context `{Ext : Externals}.

Notation "'let*' x := m 'in' k" := (bind m (fun x => k))
  (at level 10, x name, m at level 100, k at level 200).

(** Lines 34-49: the dataset, loaded and checked. *)
Definition loaded (dataset_path : string) : M DataFrame :=
  let* df := load_dataset dataset_path in
  let* _ := validate_dataset df in
  ret df.

(** Lines 34-58: the dataset and the caller's inputs, checked. *)
Definition validated (dataset_path email : string) (model : option Model)
  : M (DataFrame * Model) :=
  let* df := load_dataset dataset_path in
  let* _ := validate_dataset df in
  let* _ := validate_email email in
  let* m := validate_model model in
  ret (df, m).

(** Lines 34-81: the dataset and the extracted record, of the same columns. *)
Definition reconciled (key_path test_path dataset_path uid email : string)
  (model : option Model) : M (DataFrame * DataFrame) :=
  let* df := load_dataset dataset_path in
  let* _ := validate_dataset df in
  let* _ := validate_email email in
  let* m := validate_model model in
  let* data := perform_ocr key_path test_path uid email m in
  let* data := validate_new_data df data in
  ret (df, data).

(** Lines 34-97: the dataset file, backed up and rewritten. *)
Definition updated (key_path test_path dataset_path uid email : string)
  (model : option Model) : M unit :=
  let* df := load_dataset dataset_path in
  let* _ := validate_dataset df in
  let* _ := validate_email email in
  let* m := validate_model model in
  let* data := perform_ocr key_path test_path uid email m in
  let* data := validate_new_data df data in
  let* _ := backup_dataset dataset_path in
  append_and_save df data dataset_path.

(** The state after [n] attempts of the extraction loop, one after the
    other, whatever each of them gave. *)
Fixpoint after_attempts (n : nat) (key_path test_path uid email : string) (model : Model)
  (st : state) : state :=
  match n with
  | 0 => st
  | S n' =>
      snd (attempt_body key_path test_path uid email model
             (after_attempts n' key_path test_path uid email model st))
  end.

(** What attempt number [n] (from 0) gives, and the state it leaves. *)
Definition nth_attempt (n : nat) (key_path test_path uid email : string) (model : Model)
  (st : state) : result DataFrame * state :=
  attempt_body key_path test_path uid email model
    (after_attempts n key_path test_path uid email model st).

Definition is_ocr_call (ev : event) : bool :=
  match ev with Call_ocr_receipt _ _ _ => true | _ => false end.

Definition is_ved_call (ev : event) : bool :=
  match ev with Call_ved _ _ _ _ _ => true | _ => false end.

Definition is_pr_call (ev : event) : bool :=
  match ev with Call_pr _ _ _ => true | _ => false end.

Definition is_cc_call (ev : event) : bool :=
  match ev with Call_cc _ _ _ _ _ _ => true | _ => false end.

(** How many calls of a kind a trace has. *)
Definition calls (kind : event -> bool) (tr : list event) : nat :=
  length (List.filter kind tr).

End Prefixes.

(** ** The dataset and the email, in the words of the specification *)

(** A dataset the loader accepts: it has a row, it has the three required
    columns, and no row is null in one of them. *)
Definition valid_dataset (df : DataFrame) : Prop :=
  rows df <> [] /\
  (forall c, c ∈ required_columns -> In c (columns df)) /\
  (forall row c, In row (rows df) -> c ∈ required_columns ->
                 cell_at (columns df) row c <> None).

(** A segment: one or more letters, digits or underscores. *)
Definition segment (s : list ascii) : Prop :=
  s <> [] /\ Forall (fun c => word_char c = true) s.

Definition separator (c : ascii) : Prop :=
  c = "."%char \/ c = "-"%char.

(** Segments separated by single separators. *)
Inductive segments : list ascii -> Prop :=
| segments_one s : segment s -> segments s
| segments_more s c rest :
    segment s -> separator c -> segments rest -> segments (s ++ c :: rest).

(** One or more labels of length at least 2, a dot before each. *)
Inductive dot_labels : list ascii -> Prop :=
| dot_labels_one l : segment l -> 2 <= length l -> dot_labels ("."%char :: l)
| dot_labels_more l rest :
    segment l -> 2 <= length l -> dot_labels rest -> dot_labels ("."%char :: l ++ rest).

(** [local-part@domain.tld] *)
Definition well_formed_email (email : string) : Prop :=
  exists local_part domain tld,
    list_ascii_of_string email = local_part ++ "@"%char :: domain ++ tld /\
    segments local_part /\ segments domain /\ dot_labels tld.

(** The language of a pattern. *)
Inductive lang : regex -> list ascii -> Prop :=
| lang_eps : lang Eps []
| lang_class p c : p c = true -> lang (Class p) [c]
| lang_cat r1 r2 s1 s2 : lang r1 s1 -> lang r2 s2 -> lang (Cat r1 r2) (s1 ++ s2)
| lang_alt_l r1 r2 s : lang r1 s -> lang (Alt r1 r2) s
| lang_alt_r r1 r2 s : lang r2 s -> lang (Alt r1 r2) s
| lang_star_nil r : lang (Star r) []
| lang_star_app r s1 s2 : lang r s1 -> lang (Star r) s2 -> lang (Star r) (s1 ++ s2).

(** A string that begins and ends with a word character and has no two
    characters in a row that are not word characters. *)
Inductive tidy : list ascii -> Prop :=
| tidy_one c : word_char c = true -> tidy [c]
| tidy_word c s : word_char c = true -> tidy s -> tidy (c :: s)
| tidy_gap c g s : word_char c = true -> tidy s -> tidy (c :: g :: s).

(** The characters of a well-formed email, the [@] apart, are word
    characters and separators. *)
Definition plain (c : ascii) : Prop := word_char c = true \/ separator c.

(** The exceptions of the two dataset statements. *)
Inductive dataset_error (p : string) : exn -> Prop :=
| de_not_found : dataset_error p (Exn FileNotFoundError (Dataset_file_not_found p))
| de_read e : dataset_error p (Exn ValueError (Failed_to_read_dataset e))
| de_empty : dataset_error p (Exn ValueError DataFrame_is_empty)
| de_missing cols : dataset_error p (Exn ValueError (Dataset_missing_required_columns cols))
| de_nulls : dataset_error p (Exn ValueError Dataset_contains_missing_values)
| de_key : dataset_error p (Exn OtherException (Text "KeyError")).

(** ** A small instance of the imports, to run the pipeline on *)

Module Demo.

Definition newline : ascii := ascii_of_nat 10.

Fixpoint split_on (sep : ascii) (s : string) : list string :=
  match s with
  | EmptyString => [EmptyString]
  | String c s' =>
      if Ascii.eqb c sep then EmptyString :: split_on sep s'
      else match split_on sep s' with
           | h :: t => String c h :: t
           | [] => [String c EmptyString]
           end
  end.

Definition join_with (sep : ascii) (l : list string) : string :=
  match l with
  | [] => EmptyString
  | h :: t => fold_left (fun acc x => acc +:+ String sep x) t h
  end.

Definition cell_text (c : cell) : string :=
  match c with Some v => v | None => EmptyString end.

Definition text_cell (s : string) : cell :=
  if String.eqb s EmptyString then None else Some s.

(** One line per row, the header first, commas between the cells, a null
    cell empty. *)
Definition format (df : DataFrame) : string :=
  fold_right (fun line acc => line +:+ String newline acc) EmptyString
    (join_with "," (columns df) :: map (fun row => join_with "," (map cell_text row)) (rows df)).

Definition parse (s : string) : result DataFrame :=
  match removelast (split_on newline s) with
  | [] => Raises (Exn OtherException (Text "EmptyDataError"))
  | header :: lines =>
      Returns (mkFrame (split_on "," header)
                 (map (fun line => map text_cell (split_on "," line)) lines))
  end.

(** The extractor answers from a script, one answer per call; its result
    is a list of records, label by label.  The OCR model reads any path but
    the empty one.  The product recommender knows every user but the one
    without a name; the proximity recommender refuses a latitude over 90. *)
#[export] Instance externals : Externals := {|
  Model := unit;
  Struk := string;
  Payload := list (list (string * cell));
  Products := list string;
  Recommendation := list string;
  Coordinate := nat;
  World := list (result (list (list (string * cell))));
  ocr_receipt test_path _ w :=
    (if String.eqb test_path EmptyString
     then Raises (Exn OtherException (Text "no image"))
     else Returns ("struk of " +:+ test_path), w);
  ved _ _ _ _ w :=
    match w with
    | [] => (Raises (Exn OtherException (Text "script ended")), [])
    | r :: w' => (r, w')
    end;
  truth p := Returns (match p with [] => false | _ => true end);
  pd_DataFrame p :=
    Returns (mkFrame (match p with r :: _ => map fst r | [] => [] end) (map (map snd) p));
  pr files dataset_path uid w :=
    (match read_file files dataset_path with
     | Raises e => Raises e
     | Returns _ =>
         if String.eqb uid EmptyString
         then Raises (Exn OtherException (Text "unknown user"))
         else Returns [uid]
     end, w);
  cc files dataset_path uid product_list lon lat w :=
    (if 90 <? lat then Raises (Exn ValueError (Text "latitude")) else Returns product_list, w);
  csv_parse := parse;
  csv_format := format
|}.

Definition key : string := "key.json".
Definition image : string := "receipt.png".
Definition address : string := "user@mail.example".

Definition decode_error : exn := Exn JSONDecodeError (Text "Expecting value").

Definition dataset : DataFrame :=
  mkFrame ["uid"; "long"; "lat"]
    [[Some "u1"; Some "106.8"; Some "-6.2"];
     [Some "u2"; Some "107.6"; Some "-6.9"];
     [Some "u3"; Some "110.4"; Some "-7.0"]].

Definition record : list (list (string * cell)) :=
  [[("uid", Some "u4"); ("long", Some "112.7"); ("lat", Some "-7.3")]].

(** A record that lacks the [lat] column. *)
Definition short_record : list (list (string * cell)) :=
  [[("uid", Some "u4"); ("long", Some "112.7")]].

Definition record_frame : DataFrame :=
  mkFrame ["uid"; "long"; "lat"] [[Some "u4"; Some "112.7"; Some "-7.3"]].

Definition disk : filesystem :=
  {[ "data.csv" := File true (format dataset) ]}.

(** The same, with a directory where the backup would go. *)
Definition disk_no_backup : filesystem :=
  <[ "data.csv.backup" := Dir ]> disk.

Definition start (script : list (result (list (list (string * cell))))) : state :=
  mkState disk script [].

End Demo.

(** ** More inputs for the small instance *)

Module Cases.
Import Demo.

(** The dataset file, read-only. *)
Definition readonly_disk : filesystem :=
  {[ "data.csv" := File false (format dataset) ]}.

(** A record with the columns of the dataset and no [uid]. *)
Definition null_record : list (list (string * cell)) :=
  [[("uid", None); ("long", Some "112.7"); ("lat", Some "-7.3")]].

Definition null_record_frame : DataFrame :=
  mkFrame ["uid"; "long"; "lat"] [[None; Some "112.7"; Some "-7.3"]].

(** A record with the columns of the dataset in another order. *)
Definition swapped_record : list (list (string * cell)) :=
  [[("uid", Some "u4"); ("lat", Some "-7.3"); ("long", Some "112.7")]].

Definition swapped_record_frame : DataFrame :=
  mkFrame ["uid"; "lat"; "long"] [[Some "u4"; Some "-7.3"; Some "112.7"]].

Definition second_record : list (list (string * cell)) :=
  [[("uid", Some "u5"); ("long", Some "98.6"); ("lat", Some "3.5")]].

Definition second_record_frame : DataFrame :=
  mkFrame ["uid"; "long"; "lat"] [[Some "u5"; Some "98.6"; Some "3.5"]].

(** The dataset with the rows of a record after its own. *)
Definition appended (data : DataFrame) : DataFrame :=
  mkFrame (columns dataset) (rows dataset ++ rows data).

End Cases.

(** * Properties *)

(** ** Frames *)

Lemma get_loc_None_not_In label cols : get_loc label cols = None -> ~ In label cols.
Proof.
  induction cols as [|c cols IH]; simpl; intros H; [tauto|].
  destruct (String.eqb c label) eqn:E; [discriminate|].
  apply String.eqb_neq in E.
  destruct (get_loc label cols); [discriminate|].
  intros [->|Hin]; [congruence | now apply IH].
Qed.

Lemma getitem_Returns df labels :
  (forall l, In l labels -> In l (columns df)) ->
  getitem df labels =
    Returns (mkFrame labels (map (fun row => map (cell_at (columns df) row) labels) (rows df))).
Proof.
  intros H. unfold getitem.
  replace (forallb _ labels) with true; [reflexivity|].
  symmetry. apply forallb_forall. intros l Hl.
  destruct (get_loc l (columns df)) eqn:E; [reflexivity|].
  exfalso. eapply get_loc_None_not_In; eauto.
Qed.

(** Some column of [df[labels]] has a null: some row of [df] is null under
    one of the labels. *)
Lemma any_isnull_columns cols labels (rws : list (list cell)) :
  series_any (frame_any (isnull
    (mkFrame labels (map (fun row => map (cell_at cols row) labels) rws)))) = true <->
  exists row c, In row rws /\ In c labels /\ cell_at cols row c = None.
Proof.
  unfold series_any, frame_any, isnull; simpl.
  rewrite existsb_exists. split.
  - intros [[c b] [Hin Hb]]. simpl in Hb. subst b.
    apply list_elem_of_In, elem_of_lookup_imap in Hin.
    destruct Hin as (i & c' & Heq & Hi). inversion Heq as [[Hc Hex]]; subst c'.
    symmetry in Hex. apply existsb_exists in Hex.
    destruct Hex as (brow & Hbrow & Hnth).
    apply in_map_iff in Hbrow. destruct Hbrow as (crow & <- & Hcrow).
    apply in_map_iff in Hcrow. destruct Hcrow as (row & <- & Hrow).
    exists row, c. split; [assumption|]. split.
    + apply list_elem_of_In. eapply list_elem_of_lookup_2; eauto.
    + rewrite map_map in Hnth.
      erewrite nth_lookup_Some in Hnth;
        [| change (map ?f labels) with (f <$> labels);
           rewrite list_lookup_fmap, Hi; reflexivity].
      simpl in Hnth. destruct (cell_at cols row c); [discriminate | reflexivity].
  - intros (row & c & Hrow & Hc & Hnull).
    apply list_elem_of_In, list_elem_of_lookup in Hc. destruct Hc as [i Hi].
    exists (c, true). split; [|reflexivity].
    apply list_elem_of_In, elem_of_lookup_imap. exists i, c. split; [|assumption].
    f_equal. symmetry. apply existsb_exists.
    exists (map cell_isnull (map (cell_at cols row) labels)).
    split.
    + apply in_map, in_map_iff. exists row. tauto.
    + rewrite map_map.
      erewrite nth_lookup_Some;
        [| change (map ?f labels) with (f <$> labels);
           rewrite list_lookup_fmap, Hi; reflexivity].
      simpl. now rewrite Hnull.
Qed.

Lemma index_eq_all a b same :
  index_eq a b = Returns same -> py_all same = true -> a = b.
Proof.
  unfold index_eq, py_all.
  destruct (length a =? length b) eqn:E; [|discriminate].
  apply Nat.eqb_eq in E. intros [= <-] Hall.
  revert b E Hall. induction a as [|x a IH]; intros [|y b] E Hall; simpl in *;
    try discriminate; [reflexivity|].
  apply andb_true_iff in Hall. destruct Hall as [Hxy Hall].
  unfold id in Hxy. apply String.eqb_eq in Hxy. subst y. f_equal. apply IH; [lia | assumption].
Qed.

Lemma pd_concat_same_columns (a b : DataFrame) :
  columns a = columns b -> pd_concat a b = mkFrame (columns a) (rows a ++ rows b).
Proof. intros H. unfold pd_concat. now rewrite decide_True. Qed.

(** ** The file system *)

Lemma append_neq (p suffix : string) : suffix <> EmptyString -> p +:+ suffix <> p.
Proof.
  intros Hs. induction p as [|c p IH]; simpl.
  - exact Hs.
  - intros [= H]. now apply IH.
Qed.

Lemma backup_path_neq p : backup_path_of p <> p.
Proof. apply append_neq. discriminate. Qed.

Lemma copyfile_backup (fs fs' : filesystem) p :
  shutil_copyfile fs p (backup_path_of p) = Returns fs' ->
  exists w content,
    fs !! p = Some (File w content) /\
    fs' = <[backup_path_of p := File true content]> fs.
Proof.
  unfold shutil_copyfile, read_file, write_file.
  destruct (String.eqb p (backup_path_of p)); [discriminate|].
  destruct (fs !! p) as [[|w content]|]; simpl; try discriminate.
  intros H. exists w, content. split; [reflexivity|].
  destruct (fs !! backup_path_of p) as [[|[|] ?]|]; congruence.
Qed.

Lemma write_file_Returns (fs fs' : filesystem) p content :
  write_file fs p content = Returns fs' -> fs' = <[p := File true content]> fs.
Proof.
  unfold write_file. destruct (fs !! p) as [[|[|] ?]|]; congruence.
Qed.

(** ** The statements of the pipeline, one by one *)

Section Statements.
Context `{Ext : Externals}.

Lemma load_dataset_eq p st :
  load_dataset p st =
    (match files st !! p with
     | None => Raises (Exn FileNotFoundError (Dataset_file_not_found p))
     | Some Dir =>
         Raises (Exn ValueError (Failed_to_read_dataset (Exn OSError (Text "Is a directory"))))
     | Some (File _ content) =>
         match csv_parse content with
         | Returns df => Returns df
         | Raises e => Raises (Exn ValueError (Failed_to_read_dataset e))
         end
     end, st).
Proof.
  unfold load_dataset, bind, exists_path, os_path_exists, try_except, pd_read_csv, read_file,
    raise.
  destruct (files st !! p) as [[|w content]|] eqn:E; simpl; rewrite ?E; try reflexivity.
  destruct (csv_parse content); reflexivity.
Qed.

(** [validate_dataset], with its tests named. *)
Lemma validate_dataset_eq (df : DataFrame) st :
  validate_dataset df st =
    (if df_empty df then Raises (Exn ValueError DataFrame_is_empty)
     else if bool_decide (required_columns ⊆ list_to_set (columns df))
     then match getitem df (elements required_columns) with
          | Raises e => Raises e
          | Returns sub =>
              if series_any (frame_any (isnull sub))
              then Raises (Exn ValueError Dataset_contains_missing_values)
              else Returns tt
          end
     else Raises (Exn ValueError
            (Dataset_missing_required_columns (required_columns ∖ list_to_set (columns df)))),
     st).
Proof.
  unfold validate_dataset, bind, lift, raise, ret.
  destruct (df_empty df); [reflexivity|].
  destruct (bool_decide _); cbv beta iota delta [negb]; [|reflexivity].
  destruct (getitem _ _); [|reflexivity].
  destruct (series_any _); reflexivity.
Qed.

Lemma validate_dataset_state (df : DataFrame) st : snd (validate_dataset df st) = st.
Proof. rewrite validate_dataset_eq. reflexivity. Qed.

Lemma required_columns_elements c : In c (elements required_columns) <-> c ∈ required_columns.
Proof. rewrite <- list_elem_of_In. apply elem_of_elements. Qed.

Lemma df_empty_false (df : DataFrame) :
  rows df <> [] -> columns df <> [] -> df_empty df = false.
Proof.
  unfold df_empty. destruct (rows df), (columns df); simpl; congruence.
Qed.



Lemma required_subset (df : DataFrame) :
  (forall c, c ∈ required_columns -> In c (columns df)) ->
  bool_decide (required_columns ⊆ list_to_set (columns df)) = true.
Proof.
  intros H. apply bool_decide_eq_true_2. intros c Hc.
  apply elem_of_list_to_set, list_elem_of_In. auto.
Qed.

Lemma columns_nonempty (df : DataFrame) c :
  c ∈ required_columns -> (forall c, c ∈ required_columns -> In c (columns df)) ->
  columns df <> [].
Proof. intros Hc Hreq E. specialize (Hreq c Hc). rewrite E in Hreq. destruct Hreq. Qed.

Lemma validate_dataset_nulls (df : DataFrame) st :
  rows df <> [] ->
  (forall c, c ∈ required_columns -> In c (columns df)) ->
  (exists row c, In row (rows df) /\ c ∈ required_columns /\
                 cell_at (columns df) row c = None) ->
  validate_dataset df st = (Raises (Exn ValueError Dataset_contains_missing_values), st).
Proof.
  intros Hr Hreq (row & c & Hrow & Hc & Hnull). rewrite validate_dataset_eq.
  rewrite df_empty_false; [|assumption|eapply columns_nonempty; eauto].
  rewrite required_subset by assumption.
  apply (proj2 (required_columns_elements c)) in Hc.
  assert (Hl : forall l, In l (elements required_columns) -> In l (columns df))
    by (intros l Hl; apply Hreq; exact (proj1 (required_columns_elements l) Hl)).
  revert Hc Hl. generalize (elements required_columns). intros labels Hc Hl.
  rewrite getitem_Returns by assumption.
  replace (series_any _) with true; [reflexivity|].
  symmetry. apply any_isnull_columns. exists row, c. auto.
Qed.

Lemma uid_required : "uid" ∈ required_columns.
Proof.
  unfold required_columns. apply elem_of_union_l, elem_of_union_l, elem_of_singleton.
  reflexivity.
Qed.

Lemma validate_dataset_valid (df : DataFrame) st :
  valid_dataset df -> validate_dataset df st = (Returns tt, st).
Proof.
  intros (Hr & Hreq & Hnn). rewrite validate_dataset_eq.
  rewrite df_empty_false; [|assumption|eapply columns_nonempty; eauto using uid_required].
  rewrite required_subset by assumption.
  assert (Hl : forall l, In l (elements required_columns) -> In l (columns df))
    by (intros l Hl; apply Hreq; exact (proj1 (required_columns_elements l) Hl)).
  assert (Hn : forall row c, In row (rows df) -> In c (elements required_columns) ->
                             cell_at (columns df) row c <> None)
    by (intros row c Hrow Hc; apply Hnn;
        [assumption | exact (proj1 (required_columns_elements c) Hc)]).
  revert Hl Hn. generalize (elements required_columns). intros labels Hl Hn.
  rewrite getitem_Returns by assumption.
  destruct (series_any _) eqn:E; [|reflexivity].
  apply any_isnull_columns in E. destruct E as (row & c & Hrow & Hc & Hnull).
  exfalso. eapply Hn; eauto.
Qed.

Lemma loaded_state p st r st' : loaded p st = (r, st') -> st' = st.
Proof.
  unfold loaded, bind. rewrite load_dataset_eq.
  destruct (match files st !! p with None => _ | Some _ => _ end) as [df|e];
    [|now intros [= _ <-]].
  pose proof (validate_dataset_state df st) as Hs.
  destruct (validate_dataset df st) as [[[]|e] st1]; simpl in Hs; subst st1;
    now intros [= _ <-].
Qed.

Lemma loaded_eq p st :
  loaded p st =
    match load_dataset p st with
    | (Raises e, s) => (Raises e, s)
    | (Returns df, s) =>
        match validate_dataset df s with
        | (Raises e, s') => (Raises e, s')
        | (Returns _, s') => (Returns df, s')
        end
    end.
Proof.
  unfold loaded, bind, ret. destruct (load_dataset p st) as [[df|e] s]; [|reflexivity].
  destruct (validate_dataset df s) as [[[]|e] s']; reflexivity.
Qed.

Lemma loaded_Raises p st e st' : loaded p st = (Raises e, st') -> dataset_error p e.
Proof.
  rewrite loaded_eq, load_dataset_eq.
  destruct (files st !! p) as [[|w content]|]; try (intros [= <- _]; constructor).
  destruct (csv_parse content) as [df|e0]; [|intros [= <- _]; constructor].
  rewrite validate_dataset_eq.
  destruct (df_empty df); [intros [= <- _]; constructor|].
  destruct (bool_decide _); [|intros [= <- _]; constructor].
  unfold getitem. destruct (forallb _ _); [|intros [= <- _]; constructor].
  destruct (series_any _); [intros [= <- _]; constructor | discriminate].
Qed.

Lemma validate_email_eq email st :
  validate_email email st =
    (if re_fullmatch email_regex email then Returns tt
     else Raises (Exn ValueError Email_is_not_valid), st).
Proof. unfold validate_email. destruct (re_fullmatch _ _); reflexivity. Qed.

Lemma validate_model_eq model st :
  validate_model model st =
    (match model with
     | Some m => Returns m
     | None => Raises (Exn ValueError Model_parameter_required)
     end, st).
Proof. destruct model; reflexivity. Qed.

Lemma validated_eq p email model st :
  validated p email model st =
    match loaded p st with
    | (Raises e, s) => (Raises e, s)
    | (Returns df, s) =>
        if re_fullmatch email_regex email
        then match model with
             | Some m => (Returns (df, m), s)
             | None => (Raises (Exn ValueError Model_parameter_required), s)
             end
        else (Raises (Exn ValueError Email_is_not_valid), s)
    end.
Proof.
  rewrite loaded_eq. unfold validated, bind.
  destruct (load_dataset p st) as [[df|e] s]; [|reflexivity].
  destruct (validate_dataset df s) as [[[]|e] s']; [|reflexivity].
  rewrite validate_email_eq. destruct (re_fullmatch _ _); [|reflexivity].
  rewrite validate_model_eq. destruct model; reflexivity.
Qed.

Lemma validated_state p email model st r st' :
  validated p email model st = (r, st') -> st' = st.
Proof.
  rewrite validated_eq. destruct (loaded p st) as [[df|e] s] eqn:E;
    apply loaded_state in E; subst s.
  - destruct (re_fullmatch _ _); [destruct model|]; now intros [= _ <-].
  - now intros [= _ <-].
Qed.

Lemma reconciled_eq key test p uid email model st :
  reconciled key test p uid email model st =
    match validated p email model st with
    | (Raises e, s) => (Raises e, s)
    | (Returns (df, m), s) =>
        match perform_ocr key test uid email m s with
        | (Raises e, s') => (Raises e, s')
        | (Returns data, s') =>
            match validate_new_data df data s' with
            | (Raises e, s'') => (Raises e, s'')
            | (Returns data, s'') => (Returns (df, data), s'')
            end
        end
    end.
Proof.
  unfold reconciled, validated, bind, ret.
  destruct (load_dataset p st) as [[df|e] s]; [|reflexivity].
  destruct (validate_dataset df s) as [[[]|e] s']; [|reflexivity].
  destruct (validate_email email s') as [[[]|e] s'']; [|reflexivity].
  destruct (validate_model model s'') as [[m|e] s3]; [|reflexivity].
  destruct (perform_ocr key test uid email m s3) as [[data|e] s4]; [|reflexivity].
  destruct (validate_new_data df data s4) as [[d|e] s5]; reflexivity.
Qed.

Lemma updated_eq key test p uid email model st :
  updated key test p uid email model st =
    match reconciled key test p uid email model st with
    | (Raises e, s) => (Raises e, s)
    | (Returns (df, data), s) =>
        match backup_dataset p s with
        | (Raises e, s') => (Raises e, s')
        | (Returns _, s') => append_and_save df data p s'
        end
    end.
Proof.
  unfold updated, reconciled, bind, ret.
  destruct (load_dataset p st) as [[df|e] s]; [|reflexivity].
  destruct (validate_dataset df s) as [[[]|e] s']; [|reflexivity].
  destruct (validate_email email s') as [[[]|e] s'']; [|reflexivity].
  destruct (validate_model model s'') as [[m|e] s3]; [|reflexivity].
  destruct (perform_ocr key test uid email m s3) as [[data|e] s4]; [|reflexivity].
  destruct (validate_new_data df data s4) as [[d|e] s5]; reflexivity.
Qed.

Lemma full_deployment_eq key test p uid email model lon lat st :
  full_deployment key test p uid email model lon lat st =
    match updated key test p uid email model st with
    | (Raises e, s) => (Raises e, s)
    | (Returns _, s) => generate_recommendations p uid lon lat s
    end.
Proof.
  unfold full_deployment, updated, bind, ret.
  destruct (load_dataset p st) as [[df|e] s]; [|reflexivity].
  destruct (validate_dataset df s) as [[[]|e] s']; [|reflexivity].
  destruct (validate_email email s') as [[[]|e] s'']; [|reflexivity].
  destruct (validate_model model s'') as [[m|e] s3]; [|reflexivity].
  destruct (perform_ocr key test uid email m s3) as [[data|e] s4]; [|reflexivity].
  destruct (validate_new_data df data s4) as [[d|e] s5]; [|reflexivity].
  destruct (backup_dataset p s5) as [[[]|e] s6]; [|reflexivity].
  destruct (append_and_save df d p s6) as [[[]|e] s7]; reflexivity.
Qed.

(** An exception of a prefix is the exception of the run. *)
Lemma full_deployment_validated_Raises key test p uid email model lon lat st e st' :
  validated p email model st = (Raises e, st') ->
  full_deployment key test p uid email model lon lat st = (Raises e, st').
Proof.
  intros H. now rewrite full_deployment_eq, updated_eq, reconciled_eq, H.
Qed.

Lemma full_deployment_loaded_Raises key test p uid email model lon lat st e st' :
  loaded p st = (Raises e, st') ->
  full_deployment key test p uid email model lon lat st = (Raises e, st').
Proof.
  intros H. apply full_deployment_validated_Raises. now rewrite validated_eq, H.
Qed.

End Statements.

(** ** The extraction loop *)

Section Extraction.
Context `{Ext : Externals}.
Variables key_path test_path uid email : string.
Variable model : Model.

Local Abbreviation attempt := (attempt_body key_path test_path uid email model).
Local Abbreviation loop attempts := (for_attempt attempts key_path test_path uid email model).
Local Abbreviation after n := (after_attempts n key_path test_path uid email model).
Local Abbreviation nth_att n := (nth_attempt n key_path test_path uid email model).

(** One turn of the loop. *)
Lemma for_attempt_cons a rest st :
  loop (a :: rest) st =
    match attempt st with
    | (Returns data, s) => (Returns (Some data), s)
    | (Raises e, s) =>
        if isinstance_JSONDecodeError e
        then if a =? max_retries
             then (Raises (Exn RuntimeError (Failed_to_decode_JSON (max_retries + 1) e)), s)
             else loop rest s
        else (Raises e, s)
    end.
Proof.
  simpl. unfold bind at 1. unfold try_except, bind at 1.
  destruct (attempt_body key_path test_path uid email model st) as [[data|e] s]; [reflexivity|].
  destruct (isinstance_JSONDecodeError e); [|reflexivity].
  destruct (a =? max_retries); reflexivity.
Qed.

(** What one attempt does to the state: the files stay, the OCR model is
    called and, when it returns, the extractor is called on what it
    returned. *)
Lemma attempt_body_state st :
  snd (attempt st) =
    let (r, w) := ocr_receipt test_path model (world st) in
    match r with
    | Raises _ =>
        mkState (files st) w (trace st ++ [Call_ocr_receipt test_path model r])
    | Returns struk =>
        let (r', w') := ved struk key_path uid email w in
        mkState (files st) w'
          (trace st ++ [Call_ocr_receipt test_path model r;
                        Call_ved struk key_path uid email r'])
    end.
Proof.
  unfold attempt_body, bind, call_ocr_receipt, call_ved, lift, raise.
  destruct (ocr_receipt test_path model (world st)) as [[struk|e] w]; [|reflexivity].
  simpl. destruct (ved struk key_path uid email w) as [[payload|e] w']; simpl.
  - rewrite <- app_assoc. simpl.
    destruct (truth payload) as [[|]|e]; simpl; try reflexivity.
  - now rewrite <- app_assoc.
Qed.

Lemma attempt_body_files st : files (snd (attempt st)) = files st.
Proof.
  rewrite attempt_body_state.
  destruct (ocr_receipt test_path model (world st)) as [[struk|e] w]; [|reflexivity].
  destruct (ved struk key_path uid email w); reflexivity.
Qed.

Lemma calls_app kind (a b : list event) : calls kind (a ++ b) = calls kind a + calls kind b.
Proof. unfold calls. now rewrite List.filter_app, length_app. Qed.

Lemma attempt_body_ocr_calls st :
  calls is_ocr_call (trace (snd (attempt st))) = calls is_ocr_call (trace st) + 1.
Proof.
  rewrite attempt_body_state.
  destruct (ocr_receipt test_path model (world st)) as [[struk|e] w];
    [destruct (ved struk key_path uid email w)|]; simpl; now rewrite calls_app.
Qed.

Lemma attempt_body_ved_calls st :
  calls is_ved_call (trace (snd (attempt st))) <= calls is_ved_call (trace st) + 1.
Proof.
  rewrite attempt_body_state.
  destruct (ocr_receipt test_path model (world st)) as [[struk|e] w];
    [destruct (ved struk key_path uid email w)|]; simpl; rewrite calls_app;
    unfold calls at 2; simpl; lia.
Qed.

Lemma after_attempts_files n st : files (after n st) = files st.
Proof.
  induction n as [|n IH]; [reflexivity|].
  simpl. now rewrite attempt_body_files.
Qed.

Lemma after_attempts_shift n st : after (S n) st = after n (snd (attempt st)).
Proof.
  induction n as [|n IH]; [reflexivity|].
  simpl in *. now rewrite IH.
Qed.

Lemma nth_attempt_shift n st : nth_att (S n) st = nth_att n (snd (attempt st)).
Proof.
  unfold nth_attempt. now rewrite after_attempts_shift.
Qed.

(** Attempts that end in a decode error, none of them the last one allowed,
    are skipped over: the loop goes on from the state they leave. *)
Lemma for_attempt_skip prefix rest st :
  (forall a, In a prefix -> a <> max_retries) ->
  (forall i, i < length prefix ->
     exists e, fst (nth_att i st) = Raises e /\ isinstance_JSONDecodeError e = true) ->
  loop (prefix ++ rest) st = loop rest (after (length prefix) st).
Proof.
  revert st. induction prefix as [|a prefix IH]; intros st Hne Hjson; [reflexivity|].
  simpl app. rewrite for_attempt_cons.
  destruct (Hjson 0) as (e & He & Hj); [simpl; lia|].
  unfold nth_attempt in He. simpl in He.
  destruct (attempt st) as [r s] eqn:Ea. simpl in He. subst r. rewrite Hj.
  replace (a =? max_retries) with false
    by (symmetry; apply Nat.eqb_neq, Hne; now left).
  rewrite IH.
  - simpl length. rewrite after_attempts_shift, Ea. reflexivity.
  - intros b Hb. apply Hne. now right.
  - intros i Hi. specialize (Hjson (S i)). rewrite nth_attempt_shift, Ea in Hjson.
    apply Hjson. simpl. lia.
Qed.

Lemma perform_ocr_skip k st :
  k <= max_retries ->
  (forall i, i < k ->
     exists e, fst (nth_att i st) = Raises e /\ isinstance_JSONDecodeError e = true) ->
  perform_ocr key_path test_path uid email model st =
    loop (k :: seq (S k) (max_retries - k)) (after k st).
Proof.
  intros Hk Hjson. unfold perform_ocr.
  replace (max_retries + 1) with (k + S (max_retries - k)) by lia.
  rewrite seq_app. simpl seq at 2.
  rewrite for_attempt_skip.
  - now rewrite length_seq.
  - intros a Ha. apply in_seq in Ha. lia.
  - now rewrite length_seq.
Qed.

(** The loop calls the OCR model once per turn, so at most once per
    element of its range. *)
Lemma for_attempt_ocr_calls attempts st :
  calls is_ocr_call (trace (snd (loop attempts st))) <=
    calls is_ocr_call (trace st) + length attempts.
Proof.
  revert st. induction attempts as [|a rest IH]; intros st; [simpl; lia|].
  rewrite for_attempt_cons.
  pose proof (attempt_body_ocr_calls st) as Hc.
  destruct (attempt st) as [[data|e] s]; simpl in *; [lia|].
  destruct (isinstance_JSONDecodeError e); [|simpl; lia].
  destruct (a =? max_retries); [simpl; lia|].
  specialize (IH s). lia.
Qed.

Lemma for_attempt_ved_calls attempts st :
  calls is_ved_call (trace (snd (loop attempts st))) <=
    calls is_ved_call (trace st) + length attempts.
Proof.
  revert st. induction attempts as [|a rest IH]; intros st; [simpl; lia|].
  rewrite for_attempt_cons.
  pose proof (attempt_body_ved_calls st) as Hc.
  destruct (attempt st) as [[data|e] s]; simpl in *; [lia|].
  destruct (isinstance_JSONDecodeError e); [|simpl; lia].
  destruct (a =? max_retries); [simpl; lia|].
  specialize (IH s). lia.
Qed.

Lemma for_attempt_files attempts st : files (snd (loop attempts st)) = files st.
Proof.
  revert st. induction attempts as [|a rest IH]; intros st; [reflexivity|].
  rewrite for_attempt_cons.
  pose proof (attempt_body_files st) as Hf.
  destruct (attempt st) as [[data|e] s]; simpl in *; [assumption|].
  destruct (isinstance_JSONDecodeError e); [|assumption].
  destruct (a =? max_retries); [assumption|].
  now rewrite IH.
Qed.

(** The loop over [range(max_retries + 1)] never runs out: its last turn
    breaks or raises. *)
Lemma for_attempt_bound n start st :
  fst (loop (seq start (S n)) st) <> Returns None \/ start + n <> max_retries.
Proof.
  revert start st. induction n as [|n IH]; intros start st.
  - simpl seq. rewrite for_attempt_cons.
    destruct (attempt st) as [[data|e] s]; [left; discriminate|].
    destruct (isinstance_JSONDecodeError e); [|left; discriminate].
    destruct (start =? max_retries) eqn:E; [left; discriminate|].
    right. apply Nat.eqb_neq in E. lia.
  - change (seq start (S (S n))) with (start :: seq (S start) (S n)).
    rewrite for_attempt_cons.
    destruct (attempt st) as [[data|e] s]; [left; discriminate|].
    destruct (isinstance_JSONDecodeError e); [|left; discriminate].
    destruct (start =? max_retries) eqn:E; [left; discriminate|].
    destruct (IH (S start) s) as [H|H]; [now left | right; lia].
Qed.

Lemma perform_ocr_bound st :
  fst (perform_ocr key_path test_path uid email model st) <> Returns None.
Proof.
  destruct (for_attempt_bound max_retries 0 st) as [H|H]; [|now elim H].
  unfold perform_ocr. now replace (max_retries + 1) with (S max_retries) by lia.
Qed.

End Extraction.

(** ** Reconciliation, backup, append and recommendations *)

Section Append.
Context `{Ext : Externals}.

Lemma validate_new_data_eq df data st :
  validate_new_data df data st =
    (match data with
     | None => Raises (Exn UnboundLocalError (Text "data"))
     | Some d =>
         match index_eq (columns df) (columns d) with
         | Raises e => Raises e
         | Returns same =>
             if py_all same then Returns d else Raises (Exn ValueError Columns_do_not_match)
         end
     end, st).
Proof.
  unfold validate_new_data, bind, lift. destruct data as [d|]; [|reflexivity].
  destruct (index_eq _ _) as [same|e]; [|reflexivity].
  destruct (py_all same); reflexivity.
Qed.

Lemma backup_dataset_eq p st :
  backup_dataset p st =
    match shutil_copyfile (files st) p (backup_path_of p) with
    | Raises e => (Raises (Exn RuntimeError (Failed_to_create_backup e)), st)
    | Returns files' => (Returns tt, mkState files' (world st) (trace st))
    end.
Proof.
  unfold backup_dataset, try_except, copyfile.
  destruct (shutil_copyfile _ _ _); reflexivity.
Qed.

Lemma append_and_save_eq df data p st :
  append_and_save df data p st =
    match write_file (files st) p (csv_format (pd_concat df data)) with
    | Raises e => (Raises (Exn RuntimeError (Failed_to_save_updated_dataset e)), st)
    | Returns files' => (Returns tt, mkState files' (world st) (trace st))
    end.
Proof.
  unfold append_and_save, try_except, to_csv.
  destruct (write_file _ _ _); reflexivity.
Qed.

Lemma generate_recommendations_eq p uid lon lat st :
  generate_recommendations p uid lon lat st =
    let (r, w) := pr (files st) p uid (world st) in
    match r with
    | Raises e =>
        (Raises (Exn RuntimeError (Failed_to_generate_recommendations e)),
         mkState (files st) w (trace st ++ [Call_pr p uid r]))
    | Returns test_rec =>
        let (r', w') := cc (files st) p uid test_rec lon lat w in
        (match r' with
         | Returns end_rec => Returns end_rec
         | Raises e => Raises (Exn RuntimeError (Failed_to_generate_recommendations e))
         end,
         mkState (files st) w'
           (trace st ++ [Call_pr p uid r; Call_cc p uid test_rec lon lat r']))
    end.
Proof.
  unfold generate_recommendations, try_except, bind, call_pr, call_cc.
  destruct (pr (files st) p uid (world st)) as [[test_rec|e] w]; [|reflexivity].
  simpl. destruct (cc (files st) p uid test_rec lon lat w) as [[end_rec|e] w'];
    simpl; now rewrite <- app_assoc.
Qed.

Lemma generate_recommendations_files p uid lon lat st :
  files (snd (generate_recommendations p uid lon lat st)) = files st.
Proof.
  rewrite generate_recommendations_eq.
  destruct (pr (files st) p uid (world st)) as [[test_rec|e] w]; [|reflexivity].
  destruct (cc (files st) p uid test_rec lon lat w) as [[end_rec|e] w']; reflexivity.
Qed.

Lemma perform_ocr_files key test uid email m st :
  files (snd (perform_ocr key test uid email m st)) = files st.
Proof. apply for_attempt_files. Qed.

(** A run that got through line 58 found a dataset file that parses to a
    frame and a model. *)
Lemma validated_Returns p email model st df m st' :
  validated p email model st = (Returns (df, m), st') ->
  st' = st /\ model = Some m /\ re_fullmatch email_regex email = true /\
  loaded p st = (Returns df, st) /\
  exists w content, files st !! p = Some (File w content) /\ csv_parse content = Returns df.
Proof.
  intros H. pose proof (validated_state _ _ _ _ _ _ H) as ->.
  rewrite validated_eq in H.
  destruct (loaded p st) as [[df'|e] s] eqn:El; [|discriminate].
  pose proof (loaded_state _ _ _ _ El) as ->.
  destruct (re_fullmatch _ _); [|discriminate].
  destruct model as [m'|]; [|discriminate].
  injection H as -> ->. repeat split; try reflexivity.
  rewrite loaded_eq, load_dataset_eq in El.
  destruct (files st !! p) as [[|w content]|]; try discriminate.
  exists w, content. split; [reflexivity|].
  destruct (csv_parse content) as [d|]; [|discriminate].
  destruct (validate_dataset d st) as [[[]|] ?]; congruence.
Qed.

(** A run that got through line 81 has extracted a record with the columns
    of the dataset, and has not touched the files. *)
Lemma reconciled_Returns key test p uid email model st df data s1 :
  reconciled key test p uid email model st = (Returns (df, data), s1) ->
  exists m,
    validated p email model st = (Returns (df, m), st) /\
    perform_ocr key test uid email m st = (Returns (Some data), s1) /\
    columns data = columns df /\
    files s1 = files st.
Proof.
  rewrite reconciled_eq.
  destruct (validated p email model st) as [[[df' m]|e] s] eqn:Ev; [|discriminate].
  pose proof (validated_state _ _ _ _ _ _ Ev) as ->.
  pose proof (perform_ocr_files key test uid email m st) as Hf.
  destruct (perform_ocr key test uid email m st) as [[d|e] s'] eqn:Ep; [|discriminate].
  rewrite validate_new_data_eq. destruct d as [d|]; [|discriminate].
  destruct (index_eq (columns df') (columns d)) as [same|e] eqn:Ei; [|discriminate].
  destruct (py_all same) eqn:Ea; [|discriminate].
  intros [= -> -> ->]. exists m. repeat split; try assumption.
  symmetry. eapply index_eq_all; eauto.
Qed.

(** A run that got through line 97 has copied the dataset file to the
    backup path and written the dataset, the rows of the record after its
    own, to the dataset path. *)
Lemma updated_Returns key test p uid email model st r s3 :
  updated key test p uid email model st = (Returns r, s3) ->
  exists w content df data s1,
    files st !! p = Some (File w content) /\
    csv_parse content = Returns df /\
    reconciled key test p uid email model st = (Returns (df, data), s1) /\
    files s3 =
      <[p := File true (csv_format (mkFrame (columns df) (rows df ++ rows data)))]>
        (<[backup_path_of p := File true content]> (files st)) /\
    world s3 = world s1 /\ trace s3 = trace s1.
Proof.
  rewrite updated_eq.
  destruct (reconciled key test p uid email model st) as [[[df data]|e] s1] eqn:Er;
    [|discriminate].
  destruct (reconciled_Returns _ _ _ _ _ _ _ _ _ _ Er) as (m & Hv & Hp & Hc & Hf).
  destruct (validated_Returns _ _ _ _ _ _ _ Hv) as (_ & _ & _ & _ & w & content & Hw & Hparse).
  rewrite backup_dataset_eq, Hf.
  destruct (shutil_copyfile (files st) p (backup_path_of p)) as [fs1|e] eqn:Ec; [|discriminate].
  apply copyfile_backup in Ec. destruct Ec as (w' & content' & Hw' & ->).
  rewrite Hw in Hw'. injection Hw' as <- <-.
  rewrite append_and_save_eq. simpl files.
  destruct (write_file _ p _) as [fs2|e] eqn:Ew; [|discriminate].
  apply write_file_Returns in Ew. subst fs2.
  intros [= <- <-]. exists w, content, df, data, s1.
  rewrite pd_concat_same_columns by congruence. repeat split; assumption.
Qed.

End Append.

(** ** What a run guarantees *)

Section Guarantees.
Context `{Ext : Externals}.

(** C1. The extraction loop goes on to another attempt only after an
    attempt that raised a [JSONDecodeError].  After [k <= 3] such attempts,
    attempt [k] decides: a record ends the loop with that record; any other
    exception is the exception of the loop, raised in the state that very
    attempt left; a fourth decode error is wrapped in the [RuntimeError] of
    line 75.  The loop never calls the OCR model, nor the extractor, more
    than 4 times, and every attempt, first or retry, calls the OCR model on
    the image and then the extractor on what that call returned. *)
Theorem extraction_retry_policy key_path test_path uid email model st k :
  k <= 3 ->
  (forall i, i < k ->
     exists e, fst (nth_attempt i key_path test_path uid email model st) = Raises e /\
               isinstance_JSONDecodeError e = true) ->
  let run := perform_ocr key_path test_path uid email model st in
  let last := nth_attempt k key_path test_path uid email model st in
  (forall data, fst last = Returns data -> run = (Returns (Some data), snd last)) /\
  (forall e, fst last = Raises e -> isinstance_JSONDecodeError e = false ->
             run = (Raises e, snd last)) /\
  (forall e, fst last = Raises e -> isinstance_JSONDecodeError e = true -> k = 3 ->
             run = (Raises (Exn RuntimeError (Failed_to_decode_JSON 4 e)), snd last)) /\
  calls is_ocr_call (trace (snd run)) <= calls is_ocr_call (trace st) + 4 /\
  calls is_ved_call (trace (snd run)) <= calls is_ved_call (trace st) + 4 /\
  (forall s,
     trace (snd (attempt_body key_path test_path uid email model s)) =
       let (r, w) := ocr_receipt test_path model (world s) in
       trace s ++
         Call_ocr_receipt test_path model r ::
         match r with
         | Returns struk =>
             [Call_ved struk key_path uid email (fst (ved struk key_path uid email w))]
         | Raises _ => []
         end).
Proof.
  intros Hk Hjson run last.
  assert (Hrun : run =
    for_attempt (k :: seq (S k) (max_retries - k)) key_path test_path uid email model
      (after_attempts k key_path test_path uid email model st))
    by (apply perform_ocr_skip; [exact Hk | exact Hjson]).
  rewrite for_attempt_cons in Hrun.
  fold (nth_attempt k key_path test_path uid email model st) in Hrun. fold last in Hrun.
  repeat split.
  - intros data Hd. rewrite Hrun. destruct last as [r s]. simpl in Hd. now subst r.
  - intros e He Hj. rewrite Hrun. destruct last as [r s]. simpl in He. subst r. now rewrite Hj.
  - intros e He Hj ->. rewrite Hrun. destruct last as [r s]. simpl in He. subst r.
    now rewrite Hj.
  - apply (for_attempt_ocr_calls key_path test_path uid email model (seq 0 (max_retries + 1)) st).
  - apply (for_attempt_ved_calls key_path test_path uid email model (seq 0 (max_retries + 1)) st).
  - intros s. rewrite attempt_body_state.
    destruct (ocr_receipt test_path model (world s)) as [[struk|e] w]; [|reflexivity].
    destruct (ved struk key_path uid email w); reflexivity.
Qed.


(** C3. Whatever the run, if it leaves the dataset file other than it found
    it, the backup path holds the content the dataset file had before the
    run.  In a run that reaches the backup: when the copy fails, the run
    raises the [RuntimeError] of line 89 that carries the failure, and no
    file has changed; when it succeeds, the files are the ones before with
    the content of the dataset file at the backup path, whatever was
    there. *)
Theorem backup_before_write key_path test_path dataset_path uid email model lon lat st :
  let run := full_deployment key_path test_path dataset_path uid email model lon lat st in
  (files (snd run) !! dataset_path <> files st !! dataset_path ->
   exists w content,
     files st !! dataset_path = Some (File w content) /\
     files (snd run) !! backup_path_of dataset_path = Some (File true content)) /\
  (forall df data s1,
     reconciled key_path test_path dataset_path uid email model st = (Returns (df, data), s1) ->
     (forall e,
        shutil_copyfile (files st) dataset_path (backup_path_of dataset_path) = Raises e ->
        run = (Raises (Exn RuntimeError (Failed_to_create_backup e)), s1) /\
        files s1 = files st) /\
     (forall files',
        shutil_copyfile (files st) dataset_path (backup_path_of dataset_path) = Returns files' ->
        exists w content,
          files st !! dataset_path = Some (File w content) /\
          files' = <[backup_path_of dataset_path := File true content]> (files st) /\
          files (snd run) !! backup_path_of dataset_path = Some (File true content))).
Proof.
  intros run. subst run. rewrite full_deployment_eq, updated_eq. split.
  - destruct (reconciled _ _ _ _ _ _ _) as [[[df data]|e] s1] eqn:Er.
    + destruct (reconciled_Returns _ _ _ _ _ _ _ _ _ _ Er) as (m & _ & _ & _ & Hf).
      rewrite backup_dataset_eq, Hf.
      destruct (shutil_copyfile _ _ _) as [fs1|e] eqn:Ec;
        [|simpl; rewrite Hf; intros H; now elim H].
      apply copyfile_backup in Ec. destruct Ec as (w & content & Hw & ->).
      rewrite append_and_save_eq. simpl files.
      intros _. exists w, content. split; [assumption|].
      destruct (write_file _ _ _) as [fs2|e] eqn:Ew.
      * apply write_file_Returns in Ew. subst fs2.
        rewrite generate_recommendations_files. simpl.
        rewrite lookup_insert_ne by (apply not_eq_sym, backup_path_neq).
        apply lookup_insert_eq.
      * simpl. apply lookup_insert_eq.
    + rewrite reconciled_eq in Er.
      destruct (validated _ _ _ _) as [[[df m]|e'] s] eqn:Ev.
      * pose proof (validated_state _ _ _ _ _ _ Ev) as ->.
        pose proof (perform_ocr_files key_path test_path uid email m st) as Hf.
        destruct (perform_ocr _ _ _ _ _ _) as [[d|e'] s'].
        -- rewrite validate_new_data_eq in Er. simpl in Hf.
           assert (s1 = s') as -> by (destruct d as [d|];
             [destruct (index_eq _ _); [destruct (py_all _)|]|]; congruence).
           simpl. rewrite Hf. intros H. now elim H.
        -- injection Er as _ <-. simpl in *. rewrite Hf. intros H. now elim H.
      * pose proof (validated_state _ _ _ _ _ _ Ev) as ->.
        injection Er as _ <-. simpl. intros H. now elim H.
  - intros df data s1 Er. rewrite Er.
    destruct (reconciled_Returns _ _ _ _ _ _ _ _ _ _ Er) as (m & _ & _ & _ & Hf).
    rewrite backup_dataset_eq, Hf. split.
    + intros e Hc. rewrite Hc. split; reflexivity.
    + intros fs1 Ec. rewrite Ec.
      apply copyfile_backup in Ec. destruct Ec as (w & content & Hw & ->).
      exists w, content. split; [assumption|]. split; [reflexivity|].
      rewrite append_and_save_eq. simpl files.
      destruct (write_file _ _ _) as [fs2|e] eqn:Ew.
      * apply write_file_Returns in Ew. subst fs2.
        rewrite generate_recommendations_files. simpl.
        rewrite lookup_insert_ne by (apply not_eq_sym, backup_path_neq).
        apply lookup_insert_eq.
      * simpl. apply lookup_insert_eq.
Qed.

(** From line 80 on, for a run whose dataset and inputs passed the checks
    and whose extraction loop ended as [r]. *)
Lemma full_deployment_after_loop key test p uid email model lon lat st df m r s :
  validated p email model st = (Returns (df, m), st) ->
  perform_ocr key test uid email m st = (r, s) ->
  full_deployment key test p uid email model lon lat st =
    match r with
    | Raises e => (Raises e, s)
    | Returns data =>
        match validate_new_data df data s with
        | (Raises e, s') => (Raises e, s')
        | (Returns data, s') =>
            match backup_dataset p s' with
            | (Raises e, s'') => (Raises e, s'')
            | (Returns _, s'') =>
                match append_and_save df data p s'' with
                | (Raises e, s3) => (Raises e, s3)
                | (Returns _, s3) => generate_recommendations p uid lon lat s3
                end
            end
        end
    end.
Proof.
  intros Hv Hp. rewrite full_deployment_eq, updated_eq, reconciled_eq, Hv, Hp.
  destruct r as [data|e]; [|reflexivity].
  destruct (validate_new_data df data s) as [[d|e] s']; [|reflexivity].
  destruct (backup_dataset p s') as [[[]|e] s'']; [|reflexivity].
  destruct (append_and_save df d p s'') as [[[]|e] s3]; reflexivity.
Qed.

(** C5. In a run whose dataset and inputs pass the checks and whose four
    attempts all end in a [JSONDecodeError], the run raises the
    [RuntimeError] of line 75, which carries the error of the fourth
    attempt, in the state that attempt left; no file has been created or
    written, the backup and the dataset among them. *)
Theorem extraction_exhausted key_path test_path dataset_path uid email model lon lat st df m :
  validated dataset_path email model st = (Returns (df, m), st) ->
  (forall i, i <= 3 ->
     exists e, fst (nth_attempt i key_path test_path uid email m st) = Raises e /\
               isinstance_JSONDecodeError e = true) ->
  let run := full_deployment key_path test_path dataset_path uid email model lon lat st in
  exists e,
    fst (nth_attempt 3 key_path test_path uid email m st) = Raises e /\
    run = (Raises (Exn RuntimeError (Failed_to_decode_JSON 4 e)),
           snd (nth_attempt 3 key_path test_path uid email m st)) /\
    files (snd run) = files st /\
    files (snd run) !! dataset_path = files st !! dataset_path /\
    files (snd run) !! backup_path_of dataset_path = files st !! backup_path_of dataset_path.
Proof.
  intros Hv Hjson run.
  destruct (Hjson 3) as (e & He & Hj); [lia|].
  assert (Hp : perform_ocr key_path test_path uid email m st =
    (Raises (Exn RuntimeError (Failed_to_decode_JSON 4 e)),
     snd (nth_attempt 3 key_path test_path uid email m st))).
  { rewrite (perform_ocr_skip key_path test_path uid email m 3 st);
      [|reflexivity | intros i Hi; apply Hjson; lia].
    rewrite for_attempt_cons.
    fold (nth_attempt 3 key_path test_path uid email m st).
    destruct (nth_attempt 3 key_path test_path uid email m st) as [r s].
    simpl in He. subst r. now rewrite Hj. }
  assert (Hrun : run = (Raises (Exn RuntimeError (Failed_to_decode_JSON 4 e)),
                        snd (nth_attempt 3 key_path test_path uid email m st)))
    by (subst run; now rewrite (full_deployment_after_loop _ _ _ _ _ _ _ _ _ _ _ _ _ Hv Hp)).
  assert (Hfiles : files (snd run) = files st).
  { rewrite Hrun. simpl. unfold nth_attempt.
    now rewrite attempt_body_files, after_attempts_files. }
  exists e. rewrite Hfiles. auto.
Qed.

(** C6. In a run whose dataset and inputs pass the checks, when after
    [k <= 3] attempts that ended in a [JSONDecodeError] the extractor
    returns a result that is false ([not data]), the run raises the
    [ValueError] of line 70, and the last thing it has done is that call of
    the extractor: no further attempt is made.  No file has changed. *)
Theorem empty_extraction_not_retried key_path test_path dataset_path uid email model lon lat
    st df m k struk w1 data w2 :
  validated dataset_path email model st = (Returns (df, m), st) ->
  k <= 3 ->
  (forall i, i < k ->
     exists e, fst (nth_attempt i key_path test_path uid email m st) = Raises e /\
               isinstance_JSONDecodeError e = true) ->
  let s := after_attempts k key_path test_path uid email m st in
  ocr_receipt test_path m (world s) = (Returns struk, w1) ->
  ved struk key_path uid email w1 = (Returns data, w2) ->
  truth data = Returns false ->
  full_deployment key_path test_path dataset_path uid email model lon lat st =
    (Raises (Exn ValueError VED_returned_no_data),
     mkState (files st) w2
       (trace s ++ [Call_ocr_receipt test_path m (Returns struk);
                    Call_ved struk key_path uid email (Returns data)])).
Proof.
  intros Hv Hk Hjson s Hocr Hved Htruth.
  assert (Ha : attempt_body key_path test_path uid email m s =
    (Raises (Exn ValueError VED_returned_no_data),
     mkState (files st) w2
       (trace s ++ [Call_ocr_receipt test_path m (Returns struk);
                    Call_ved struk key_path uid email (Returns data)]))).
  { unfold attempt_body, bind, call_ocr_receipt, call_ved, lift, raise.
    rewrite Hocr. simpl. rewrite Hved. simpl. rewrite Htruth. simpl.
    rewrite <- app_assoc. simpl. subst s. now rewrite after_attempts_files. }
  erewrite full_deployment_after_loop; [| exact Hv |].
  2:{ rewrite (perform_ocr_skip key_path test_path uid email m k st Hk Hjson).
      rewrite for_attempt_cons. fold s. rewrite Ha. reflexivity. }
  reflexivity.
Qed.

(** C9. In a run that has rewritten the dataset file, a product
    recommender that raises, or a proximity recommender that raises after
    the product recommender returned, ends the run with the [RuntimeError]
    of line 110 that carries the exception.  The recommender that raised
    was called once and nothing was called after it (in any such run the
    product recommender is called once and the proximity recommender at most
    once), and the files are the ones the append left: the dataset file
    holds the rows of the dataset followed by those of the record, the
    backup file the content from before the run. *)
Theorem recommendation_failure key_path test_path dataset_path uid email model lon lat st s3 :
  updated key_path test_path dataset_path uid email model st = (Returns tt, s3) ->
  let run := full_deployment key_path test_path dataset_path uid email model lon lat st in
  (forall e w,
     pr (files s3) dataset_path uid (world s3) = (Raises e, w) ->
     run = (Raises (Exn RuntimeError (Failed_to_generate_recommendations e)),
            mkState (files s3) w (trace s3 ++ [Call_pr dataset_path uid (Raises e)]))) /\
  (forall test_rec w e w',
     pr (files s3) dataset_path uid (world s3) = (Returns test_rec, w) ->
     cc (files s3) dataset_path uid test_rec lon lat w = (Raises e, w') ->
     run = (Raises (Exn RuntimeError (Failed_to_generate_recommendations e)),
            mkState (files s3) w'
              (trace s3 ++ [Call_pr dataset_path uid (Returns test_rec);
                            Call_cc dataset_path uid test_rec lon lat (Raises e)]))) /\
  calls is_pr_call (trace (snd run)) = calls is_pr_call (trace s3) + 1 /\
  calls is_cc_call (trace (snd run)) <= calls is_cc_call (trace s3) + 1 /\
  (exists w content df data s1,
     files st !! dataset_path = Some (File w content) /\
     csv_parse content = Returns df /\
     reconciled key_path test_path dataset_path uid email model st = (Returns (df, data), s1) /\
     files s3 !! dataset_path =
       Some (File true (csv_format (mkFrame (columns df) (rows df ++ rows data)))) /\
     files s3 !! backup_path_of dataset_path = Some (File true content)).
Proof.
  intros Hu run. subst run. rewrite full_deployment_eq, Hu, generate_recommendations_eq.
  split; [|split; [|split; [|split]]].
  - intros e w Hpr. now rewrite Hpr.
  - intros test_rec w e w' Hpr Hcc. now rewrite Hpr, Hcc.
  - destruct (pr _ _ _ _) as [[test_rec|e] w]; [destruct (cc _ _ _ _ _ _ _) as [r' w']|];
      simpl; now rewrite calls_app.
  - destruct (pr _ _ _ _) as [[test_rec|e] w]; [destruct (cc _ _ _ _ _ _ _) as [r' w']|];
      simpl; rewrite calls_app; unfold calls at 2; simpl; lia.
  - destruct (updated_Returns _ _ _ _ _ _ _ _ _ Hu)
      as (w & content & df & data & s1 & Hw & Hparse & Hr & Hfiles & _ & _).
    exists w, content, df, data, s1. rewrite Hfiles. repeat split; try assumption.
    + apply lookup_insert_eq.
    + rewrite lookup_insert_ne by (apply not_eq_sym, backup_path_neq).
      apply lookup_insert_eq.
Qed.


(** C10. The dataset is loaded and checked before the email and the model
    are looked at: an exception of the dataset statements is the exception
    of the run whatever the email and the model, so a dataset path that does
    not exist raises [FileNotFoundError] also with a malformed email and no
    model.  A run that raises the [ValueError] of line 54 (the email) has
    loaded and checked its dataset; one that raises the [ValueError] of
    line 58 (the model) has, besides, an email that matches. *)
Theorem dataset_checks_come_first key_path test_path dataset_path uid email model lon lat st :
  let run := full_deployment key_path test_path dataset_path uid email model lon lat st in
  (forall e st', loaded dataset_path st = (Raises e, st') -> run = (Raises e, st')) /\
  (files st !! dataset_path = None ->
   run = (Raises (Exn FileNotFoundError (Dataset_file_not_found dataset_path)), st)) /\
  (fst run = Raises (Exn ValueError Email_is_not_valid) ->
   exists df, loaded dataset_path st = (Returns df, st)) /\
  (fst run = Raises (Exn ValueError Model_parameter_required) ->
   (exists df, loaded dataset_path st = (Returns df, st)) /\
   re_fullmatch email_regex email = true).
Proof.
  intros run. subst run.
  assert (H1 : forall e st', loaded dataset_path st = (Raises e, st') ->
            full_deployment key_path test_path dataset_path uid email model lon lat st
              = (Raises e, st'))
    by (intros e st'; apply full_deployment_loaded_Raises).
  split; [exact H1|]. split; [|split].
  - intros Hnone. apply H1. rewrite loaded_eq, load_dataset_eq, Hnone. reflexivity.
  - destruct (loaded dataset_path st) as [[df|e] s] eqn:El.
    + pose proof (loaded_state _ _ _ _ El) as ->. eauto.
    + rewrite (H1 _ _ eq_refl). simpl. intros [= ->].
      apply loaded_Raises in El. inversion El.
  - destruct (loaded dataset_path st) as [[df|e] s] eqn:El.
    + pose proof (loaded_state _ _ _ _ El) as ->. intros Hrun. split; [eauto|].
      destruct (re_fullmatch email_regex email) eqn:Em; [reflexivity|].
      rewrite (full_deployment_validated_Raises _ _ _ _ _ _ _ _ _
                 (Exn ValueError Email_is_not_valid) st) in Hrun; [discriminate|].
      now rewrite validated_eq, El, Em.
    + rewrite (H1 _ _ eq_refl). simpl. intros [= ->].
      apply loaded_Raises in El. inversion El.
Qed.

(** When the record and the dataset do not have the same number of
    columns, the comparison of line 80 itself raises, in pandas, and line 81
    is not reached. *)
Lemma columns_count_mismatch key test p uid email model lon lat st df m data s1 :
  validated p email model st = (Returns (df, m), st) ->
  perform_ocr key test uid email m st = (Returns (Some data), s1) ->
  length (columns df) <> length (columns data) ->
  full_deployment key test p uid email model lon lat st =
    (Raises (Exn ValueError (Text "Lengths must match to compare")), s1) /\
  files s1 = files st.
Proof.
  intros Hv Hp Hlen. split.
  - rewrite (full_deployment_after_loop _ _ _ _ _ _ _ _ _ _ _ _ _ Hv Hp).
    rewrite validate_new_data_eq. unfold index_eq.
    apply Nat.eqb_neq in Hlen. now rewrite Hlen.
  - pose proof (perform_ocr_files key test uid email m st) as Hf. now rewrite Hp in Hf.
Qed.

(** When they have the same number of columns and differ in a name or in
    the order, line 81 raises and no file has changed. *)
Lemma columns_differ_same_count key test p uid email model lon lat st df m data s1 :
  validated p email model st = (Returns (df, m), st) ->
  perform_ocr key test uid email m st = (Returns (Some data), s1) ->
  length (columns df) = length (columns data) ->
  columns df <> columns data ->
  full_deployment key test p uid email model lon lat st =
    (Raises (Exn ValueError Columns_do_not_match), s1) /\
  files s1 = files st.
Proof.
  intros Hv Hp Hlen Hne. split.
  - rewrite (full_deployment_after_loop _ _ _ _ _ _ _ _ _ _ _ _ _ Hv Hp).
    rewrite validate_new_data_eq.
    destruct (index_eq (columns df) (columns data)) as [same|e] eqn:Ei.
    + destruct (py_all same) eqn:Ea; [|reflexivity].
      elim Hne. eapply index_eq_all; eauto.
    + unfold index_eq in Ei. apply Nat.eqb_eq in Hlen. rewrite Hlen in Ei. discriminate.
  - pose proof (perform_ocr_files key test uid email m st) as Hf. now rewrite Hp in Hf.
Qed.

End Guarantees.

(** ** The matcher and the language of a pattern *)

Lemma lang_cat_inv r1 r2 s :
  lang (Cat r1 r2) s -> exists s1 s2, s = s1 ++ s2 /\ lang r1 s1 /\ lang r2 s2.
Proof. inversion 1; subst; eauto. Qed.

Lemma lang_alt_inv r1 r2 s : lang (Alt r1 r2) s -> lang r1 s \/ lang r2 s.
Proof. inversion 1; subst; auto. Qed.

Lemma lang_class_inv p s : lang (Class p) s -> exists c, s = [c] /\ p c = true.
Proof. inversion 1; subst; eauto. Qed.

Lemma lang_eps_inv s : lang Eps s -> s = [].
Proof. now inversion 1. Qed.

Lemma lang_never_inv s : ~ lang Never s.
Proof. inversion 1. Qed.

(** A non-empty word of [r*] begins with a non-empty word of [r]. *)
Lemma lang_star_cons r c s :
  lang (Star r) (c :: s) ->
  exists s1 s2, s = s1 ++ s2 /\ lang r (c :: s1) /\ lang (Star r) s2.
Proof.
  intros H. remember (Star r) as r' eqn:Er. remember (c :: s) as cs eqn:Es.
  revert s Es. induction H as [| | | | | |r0 s1 s2 H1 _ H2 IH2]; try discriminate.
  intros s Es. injection Er as ->. destruct s1 as [|c' s1]; simpl in Es.
  - now apply IH2.
  - injection Es as -> <-. eauto.
Qed.

Lemma nullable_lang r : nullable r = true <-> lang r [].
Proof.
  induction r as [| |p|r1 IH1 r2 IH2|r1 IH1 r2 IH2|r IH]; simpl.
  - split; [discriminate | intros H; now apply lang_never_inv in H].
  - split; [constructor | reflexivity].
  - split; [discriminate | intros H; apply lang_class_inv in H as (c & [=] & _)].
  - rewrite andb_true_iff, IH1, IH2. split.
    + intros [H1 H2]. exact (lang_cat _ _ [] [] H1 H2).
    + intros H. apply lang_cat_inv in H as (s1 & s2 & Hs & H1 & H2).
      symmetry in Hs. apply app_eq_nil in Hs as [-> ->]. auto.
  - rewrite orb_true_iff, IH1, IH2. split.
    + intros [H|H]; [now apply lang_alt_l | now apply lang_alt_r].
    + apply lang_alt_inv.
  - split; [constructor | reflexivity].
Qed.

Lemma deriv_lang c r s : lang (deriv c r) s <-> lang r (c :: s).
Proof.
  revert s. induction r as [| |p|r1 IH1 r2 IH2|r1 IH1 r2 IH2|r IH]; intros s; simpl.
  - split; intros H; now apply lang_never_inv in H.
  - split; intros H; [now apply lang_never_inv in H | apply lang_eps_inv in H; discriminate].
  - destruct (p c) eqn:Ep; split; intros H.
    + apply lang_eps_inv in H as ->. now constructor.
    + apply lang_class_inv in H as (c' & [= <- ->] & _). constructor.
    + now apply lang_never_inv in H.
    + apply lang_class_inv in H as (c' & [= <- ->] & Hp). congruence.
  - assert (Hcat : lang (Cat (deriv c r1) r2) s \/ (nullable r1 = true /\ lang (deriv c r2) s)
                   <-> lang (Cat r1 r2) (c :: s)).
    { split.
      - intros [H|[Hn H]].
        + apply lang_cat_inv in H as (s1 & s2 & -> & H1 & H2).
          apply IH1 in H1. exact (lang_cat _ _ (c :: s1) s2 H1 H2).
        + apply nullable_lang in Hn. apply IH2 in H. exact (lang_cat _ _ [] (c :: s) Hn H).
      - intros H. apply lang_cat_inv in H as (s1 & s2 & Hs & H1 & H2).
        destruct s1 as [|c' s1]; simpl in Hs.
        + subst s2. right. split; [now apply nullable_lang | now apply IH2].
        + injection Hs as <- ->. left. apply lang_cat; [now apply IH1 | assumption]. }
    destruct (nullable r1); rewrite <- Hcat; split.
    + intros H. apply lang_alt_inv in H as [H|H]; auto.
    + intros [H|[_ H]]; [now apply lang_alt_l | now apply lang_alt_r].
    + auto.
    + intros [H|[[=] _]]. assumption.
  - split; intros H.
    + apply lang_alt_inv in H as [H|H]; [apply lang_alt_l, IH1 | apply lang_alt_r, IH2];
        assumption.
    + apply lang_alt_inv in H as [H|H]; [apply lang_alt_l, IH1 | apply lang_alt_r, IH2];
        assumption.
  - split; intros H.
    + apply lang_cat_inv in H as (s1 & s2 & -> & H1 & H2).
      apply IH in H1. exact (lang_star_app _ (c :: s1) s2 H1 H2).
    + apply lang_star_cons in H as (s1 & s2 & -> & H1 & H2).
      apply lang_cat; [now apply IH | assumption].
Qed.

(** The matcher decides the language. *)
Lemma matches_lang r s : matches r s = true <-> lang r s.
Proof.
  revert r. induction s as [|c s IH]; intros r; simpl.
  - apply nullable_lang.
  - rewrite IH. apply deriv_lang.
Qed.

(** ** The language of [email_regex] *)

Lemma lang_star_class p s : lang (Star (Class p)) s <-> Forall (fun c => p c = true) s.
Proof.
  split.
  - induction s as [|c s IH]; intros H; [constructor|].
    apply lang_star_cons in H as (s1 & s2 & -> & H1 & H2).
    apply lang_class_inv in H1 as (c' & [= -> ->] & Hp). simpl in *. auto.
  - induction 1 as [|c s Hp _ IH]; [constructor|].
    apply (lang_star_app _ [c] s); [now constructor | assumption].
Qed.

Lemma lang_plus_class p s :
  lang (Plus (Class p)) s <-> s <> [] /\ Forall (fun c => p c = true) s.
Proof.
  unfold Plus. split.
  - intros H. apply lang_cat_inv in H as (s1 & s2 & -> & H1 & H2).
    apply lang_class_inv in H1 as (c & -> & Hp). apply lang_star_class in H2.
    split; [discriminate | now constructor].
  - intros [Hne H]. destruct s as [|c s]; [congruence|]. inversion H; subst.
    apply (lang_cat _ _ [c] s); [now constructor | now apply lang_star_class].
Qed.

Lemma lang_word s : lang (Plus (Class word_char)) s <-> segment s.
Proof. apply lang_plus_class. Qed.

Lemma segment_app a b : segment a -> segment b -> segment (a ++ b).
Proof.
  intros [Ha Fa] [Hb Fb]. split.
  - destruct a; [congruence | discriminate].
  - apply Forall_app. auto.
Qed.

Lemma dot_or_dash_separator c : dot_or_dash c = true <-> separator c.
Proof.
  unfold dot_or_dash, separator. rewrite orb_true_iff, !Ascii.eqb_eq. reflexivity.
Qed.

(** [\w+([\.-]?\w+)*]: without its separator a repetition only makes the
    segment before it longer. *)
Lemma lang_dotted_tail rest :
  lang (Star (Cat (Opt (Class dot_or_dash)) (Plus (Class word_char)))) rest ->
  forall s, segment s -> segments (s ++ rest).
Proof.
  intros H. remember (Star _) as r eqn:Er.
  induction H as [| | | | | |r0 s1 s2 H1 _ H2 IH2]; try discriminate; intros s Hs.
  - rewrite app_nil_r. now constructor.
  - injection Er as ->. specialize (IH2 eq_refl).
    apply lang_cat_inv in H1 as (sep & w & -> & Hsep & Hw). apply lang_word in Hw.
    apply lang_alt_inv in Hsep as [Hsep|Hsep].
    + apply lang_eps_inv in Hsep as ->. simpl. rewrite app_assoc.
      apply IH2. now apply segment_app.
    + apply lang_class_inv in Hsep as (c & -> & Hc). apply dot_or_dash_separator in Hc.
      simpl. apply segments_more; auto.
Qed.

Lemma lang_dotted_words s : lang dotted_words s <-> segments s.
Proof.
  unfold dotted_words. split.
  - intros H. apply lang_cat_inv in H as (s1 & s2 & -> & H1 & H2).
    apply lang_word in H1. now apply lang_dotted_tail.
  - induction 1 as [s Hs | s c rest Hs Hc _ IH].
    + rewrite <- (app_nil_r s). apply lang_cat; [now apply lang_word | constructor].
    + apply lang_cat_inv in IH as (s1 & s2 & -> & H1 & H2).
      apply lang_cat; [now apply lang_word|].
      change (c :: s1 ++ s2) with ((c :: s1) ++ s2).
      apply lang_star_app; [|assumption].
      apply (lang_cat _ _ [c] s1); [|assumption].
      apply lang_alt_r. constructor. now apply dot_or_dash_separator.
Qed.

Lemma lang_at_least_2 s :
  lang (AtLeast2 (Class word_char)) s <-> segment s /\ 2 <= length s.
Proof.
  unfold AtLeast2, segment. split.
  - intros H. apply lang_cat_inv in H as (s1 & s2 & -> & H1 & H2).
    apply lang_class_inv in H1 as (c1 & -> & Hp1).
    apply lang_cat_inv in H2 as (s2' & s3 & -> & H2 & H3).
    apply lang_class_inv in H2 as (c2 & -> & Hp2).
    apply lang_star_class in H3. simpl. repeat split; [discriminate | auto | lia].
  - intros [[_ H] Hlen]. destruct s as [|c1 [|c2 s]]; simpl in Hlen; try lia.
    inversion H as [|? ? Hp1 H']; subst. inversion H' as [|? ? Hp2 H'']; subst.
    apply (lang_cat _ _ [c1] (c2 :: s)); [now constructor|].
    apply (lang_cat _ _ [c2] s); [now constructor | now apply lang_star_class].
Qed.

Lemma lang_dot_label s :
  lang (Cat (lit ".") (AtLeast2 (Class word_char))) s <->
  exists l, s = "."%char :: l /\ segment l /\ 2 <= length l.
Proof.
  split.
  - intros H. apply lang_cat_inv in H as (s1 & s2 & -> & H1 & H2).
    apply lang_class_inv in H1 as (c & -> & Hc). apply Ascii.eqb_eq in Hc. subst c.
    apply lang_at_least_2 in H2. exists s2. tauto.
  - intros (l & -> & Hl). apply (lang_cat _ _ ["."%char] l).
    + constructor. apply Ascii.eqb_refl.
    + now apply lang_at_least_2.
Qed.

Lemma lang_dot_labels_star s :
  lang (Star (Cat (lit ".") (AtLeast2 (Class word_char)))) s -> s = [] \/ dot_labels s.
Proof.
  intros H. remember (Star _) as r eqn:Er.
  induction H as [| | | | | |r0 s1 s2 H1 _ H2 IH2]; try discriminate; [now left|].
  injection Er as ->. right.
  apply lang_dot_label in H1 as (l & -> & Hl & Hlen).
  destruct (IH2 eq_refl) as [-> | Hrest].
  - rewrite app_nil_r. now constructor.
  - simpl. now constructor.
Qed.

Lemma lang_dot_labels s :
  lang (Plus (Cat (lit ".") (AtLeast2 (Class word_char)))) s <-> dot_labels s.
Proof.
  unfold Plus. split.
  - intros H. apply lang_cat_inv in H as (s1 & s2 & -> & H1 & H2).
    apply lang_dot_label in H1 as (l & -> & Hl & Hlen).
    apply lang_dot_labels_star in H2 as [-> | Hrest].
    + rewrite app_nil_r. now constructor.
    + simpl. now constructor.
  - induction 1 as [l Hl Hlen | l rest Hl Hlen _ IH].
    + rewrite <- (app_nil_r (_ :: l)).
      apply lang_cat; [apply lang_dot_label; eauto | constructor].
    + change ("."%char :: l ++ rest) with (("."%char :: l) ++ rest).
      apply lang_cat; [apply lang_dot_label; eauto|].
      apply lang_cat_inv in IH as (s1 & s2 & -> & H1 & H2).
      now apply lang_star_app.
Qed.

(** The emails that [re.fullmatch] lets through are the well-formed ones. *)
Lemma re_fullmatch_email email :
  re_fullmatch email_regex email = true <-> well_formed_email email.
Proof.
  unfold re_fullmatch, well_formed_email. rewrite matches_lang. unfold email_regex. split.
  - intros H. apply lang_cat_inv in H as (l & s1 & -> & Hl & H).
    apply lang_cat_inv in H as (at_ & s2 & -> & Hat & H).
    apply lang_cat_inv in H as (d & t & -> & Hd & Ht).
    apply lang_class_inv in Hat as (c & -> & Hc). apply Ascii.eqb_eq in Hc. subst c.
    exists l, d, t. split; [reflexivity|].
    now rewrite <- !lang_dotted_words, <- lang_dot_labels.
  - intros (l & d & t & -> & Hl & Hd & Ht).
    apply lang_cat; [now apply lang_dotted_words|].
    apply (lang_cat _ _ ["@"%char] (d ++ t)); [constructor; apply Ascii.eqb_refl|].
    apply lang_cat; [now apply lang_dotted_words | now apply lang_dot_labels].
Qed.

(** ** What a well-formed email looks like *)

Lemma segment_tidy s : segment s -> tidy s.
Proof.
  intros [Hne H]. induction H as [|c s Hc H IH]; [congruence|].
  destruct s as [|c' s]; [now constructor|].
  apply tidy_word; [assumption | apply IH; discriminate].
Qed.

Lemma tidy_app_gap a g b : tidy a -> tidy b -> tidy (a ++ g :: b).
Proof.
  induction 1; intros Hb; simpl.
  - now apply tidy_gap.
  - apply tidy_word; auto.
  - apply tidy_gap; auto.
Qed.

Lemma segments_tidy s : segments s -> tidy s.
Proof.
  induction 1 as [s Hs | s c rest Hs _ _ IH].
  - now apply segment_tidy.
  - apply tidy_app_gap; [now apply segment_tidy | assumption].
Qed.

Lemma dot_labels_tidy t : dot_labels t -> exists t', t = "."%char :: t' /\ tidy t'.
Proof.
  induction 1 as [l Hl _ | l rest Hl _ _ (t' & -> & Ht')].
  - exists l. split; [reflexivity | now apply segment_tidy].
  - exists (l ++ "."%char :: t'). split; [reflexivity|].
    apply tidy_app_gap; [now apply segment_tidy | assumption].
Qed.

Lemma well_formed_email_tidy email :
  well_formed_email email -> tidy (list_ascii_of_string email).
Proof.
  intros (l & d & t & -> & Hl & Hd & Ht).
  apply dot_labels_tidy in Ht as (t' & -> & Ht').
  apply tidy_app_gap; [now apply segments_tidy|].
  apply tidy_app_gap; [now apply segments_tidy | assumption].
Qed.

Lemma tidy_first s : tidy s -> exists c rest, s = c :: rest /\ word_char c = true.
Proof. destruct 1; eauto. Qed.

Lemma tidy_last s : tidy s -> exists init c, s = init ++ [c] /\ word_char c = true.
Proof.
  induction 1 as [c Hc | c s Hc _ (init & c' & -> & Hc') | c g s Hc _ (init & c' & -> & Hc')].
  - exists [], c. auto.
  - exists (c :: init), c'. auto.
  - exists (c :: g :: init), c'. auto.
Qed.

Lemma tidy_no_two_gaps s a c1 c2 b :
  tidy s -> s = a ++ c1 :: c2 :: b -> word_char c1 = true \/ word_char c2 = true.
Proof.
  intros H. revert a. induction H as [c Hc | c s Hc H IH | c g s Hc H IH]; intros a Hs.
  - destruct a as [|x [|y a]]; discriminate.
  - destruct a as [|x a]; injection Hs as -> Hs; [now left | eauto].
  - destruct a as [|x [|y a]].
    + injection Hs as -> _ _. now left.
    + injection Hs as _ -> Hs. apply tidy_first in H as (c' & rest & -> & Hc').
      injection Hs as -> _. now right.
    + injection Hs as _ _ Hs. eauto.
Qed.

Lemma segment_plain s : segment s -> Forall plain s.
Proof. intros [_ H]. eapply Forall_impl; [exact H|]. intros c Hc. now left. Qed.

Lemma segments_plain s : segments s -> Forall plain s.
Proof.
  induction 1 as [s Hs | s c rest Hs Hc _ IH]; [now apply segment_plain|].
  apply Forall_app. split; [now apply segment_plain|]. constructor; [now right | assumption].
Qed.

Lemma dot_labels_plain t : dot_labels t -> Forall plain t.
Proof.
  induction 1 as [l Hl _ | l rest Hl _ _ IH].
  - constructor; [right; now left | now apply segment_plain].
  - constructor; [right; now left|].
    apply Forall_app. split; [now apply segment_plain | assumption].
Qed.

Lemma at_not_plain : ~ plain "@"%char.
Proof. intros [H|[H|H]]; discriminate. Qed.

Lemma plain_no_at s : Forall plain s -> ~ In "@"%char s.
Proof.
  intros H Hin. rewrite Forall_forall in H.
  apply at_not_plain, H. now apply list_elem_of_In.
Qed.

Lemma dot_labels_has_dot t : dot_labels t -> In "."%char t.
Proof. destruct 1; now left. Qed.

(** Where the [@] of a well-formed email is, and that a dot follows it. *)
Lemma well_formed_email_domain email l d :
  well_formed_email email ->
  list_ascii_of_string email = l ++ "@"%char :: d ->
  In "."%char d.
Proof.
  intros (lp & dom & t & -> & Hl & Hd & Ht) Hs.
  assert (Hnl : ~ In "@"%char lp) by now apply plain_no_at, segments_plain.
  assert (Hnr : ~ In "@"%char (dom ++ t)).
  { apply plain_no_at, Forall_app. split; [now apply segments_plain | now apply dot_labels_plain]. }
  apply app_eq_app in Hs as [k [[-> Hk] | [-> Hk]]].
  - destruct k as [|x k]; simpl in Hk.
    + injection Hk as ->. apply in_or_app. right. now apply dot_labels_has_dot.
    + injection Hk as <- _. elim Hnl. apply in_or_app. simpl. tauto.
  - destruct k as [|x k]; simpl in Hk.
    + injection Hk as <-. apply in_or_app. right. now apply dot_labels_has_dot.
    + injection Hk as <- Hk. elim Hnr. rewrite Hk. apply in_or_app. simpl. tauto.
Qed.

(** A well-formed email ends with a label: its last two characters are
    word characters. *)
Lemma segment_last_two l :
  segment l -> 2 <= length l ->
  exists init c1 c2, l = init ++ [c1; c2] /\ word_char c1 = true /\ word_char c2 = true.
Proof.
  intros [_ H] Hlen.
  destruct l as [|c2 l] using rev_ind; [simpl in Hlen; lia|].
  destruct l as [|c1 l _] using rev_ind; [simpl in Hlen; lia|].
  apply Forall_app in H as [H H2]. apply Forall_app in H as [_ H1].
  exists l, c1, c2. rewrite <- app_assoc.
  inversion H1; inversion H2; subst. auto.
Qed.

Lemma dot_labels_last_two t :
  dot_labels t ->
  exists init c1 c2, t = init ++ [c1; c2] /\ word_char c1 = true /\ word_char c2 = true.
Proof.
  induction 1 as [l Hl Hlen | l rest Hl Hlen _ (init & c1 & c2 & -> & H1 & H2)].
  - destruct (segment_last_two l Hl Hlen) as (init & c1 & c2 & -> & H1 & H2).
    exists ("."%char :: init), c1, c2. auto.
  - exists ("."%char :: l ++ init), c1, c2. simpl. rewrite <- app_assoc. auto.
Qed.

Lemma well_formed_email_last_two email :
  well_formed_email email ->
  exists init c1 c2,
    list_ascii_of_string email = init ++ [c1; c2] /\
    word_char c1 = true /\ word_char c2 = true.
Proof.
  intros (l & d & t & -> & _ & _ & Ht).
  apply dot_labels_last_two in Ht as (init & c1 & c2 & -> & H1 & H2).
  exists (l ++ "@"%char :: d ++ init), c1, c2.
  split; [|auto]. rewrite <- !app_assoc. simpl. now rewrite <- app_assoc.
Qed.

Lemma separator_not_word c : separator c \/ c = "@"%char -> word_char c = false.
Proof. intros [[->| ->]| ->]; reflexivity. Qed.

Lemma required_columns_cases c :
  c ∈ required_columns <-> c = "uid" \/ c = "long" \/ c = "lat".
Proof.
  unfold required_columns.
  rewrite !elem_of_union, !elem_of_singleton. tauto.
Qed.

Section Inputs.
Context `{Ext : Externals}.

(** C8. The email check lets through the well-formed emails and no other:
    a local part and a domain, each made of segments of letters, digits and
    underscores with single [.] or [-] between them, an [@] between the
    two, and after the domain one or more labels of two characters or more,
    a dot before each.  So an email without [@], one without a dot after
    its [@], one whose last label has fewer than two characters, one with
    two separators (or a separator and the [@]) in a row, one that begins or
    ends with a separator, are all refused.  A run with
    a refused email leaves the state as it found it, no file written and no
    collaborator called, and, when the dataset loaded, raises the
    [ValueError] of line 54. *)
Theorem email_validation key_path test_path dataset_path uid email model lon lat st :
  let chars := list_ascii_of_string email in
  let run := full_deployment key_path test_path dataset_path uid email model lon lat st in
  (re_fullmatch email_regex email = true <-> well_formed_email email) /\
  (~ In "@"%char chars -> re_fullmatch email_regex email = false) /\
  (forall l d, chars = l ++ "@"%char :: d -> ~ In "."%char d ->
               re_fullmatch email_regex email = false) /\
  (forall a c1 c2 b, chars = a ++ c1 :: c2 :: b ->
                     separator c1 \/ c1 = "@"%char -> separator c2 \/ c2 = "@"%char ->
                     re_fullmatch email_regex email = false) /\
  (forall c rest, chars = c :: rest -> separator c -> re_fullmatch email_regex email = false) /\
  (forall init c, chars = init ++ [c] -> separator c ->
                  re_fullmatch email_regex email = false) /\
  (forall init c1 c2, chars = init ++ [c1; c2] ->
                      word_char c1 = false \/ word_char c2 = false ->
                      re_fullmatch email_regex email = false) /\
  (re_fullmatch email_regex email = false ->
   snd run = st /\
   forall df, loaded dataset_path st = (Returns df, st) ->
              fst run = Raises (Exn ValueError Email_is_not_valid)).
Proof.
  intros chars run. subst chars.
  assert (Hrej : forall P : Prop, (well_formed_email email -> P -> False) -> P ->
                 re_fullmatch email_regex email = false).
  { intros P HP p. destruct (re_fullmatch email_regex email) eqn:E; [|reflexivity].
    apply re_fullmatch_email in E. elim (HP E p). }
  split; [apply re_fullmatch_email|]. repeat split.
  - apply Hrej. intros (l & d & t & -> & _) Hno. apply Hno, in_or_app. simpl. tauto.
  - intros l d Hs. apply Hrej. intros Hwf Hno. eapply Hno, well_formed_email_domain; eauto.
  - intros a c1 c2 b Hs H1 H2. apply (Hrej True); [|exact I]. intros Hwf _.
    apply well_formed_email_tidy in Hwf.
    apply separator_not_word in H1, H2.
    destruct (tidy_no_two_gaps _ _ _ _ _ Hwf Hs); congruence.
  - intros c rest Hs Hc. apply (Hrej True); [|exact I]. intros Hwf _.
    apply well_formed_email_tidy, tidy_first in Hwf as (c' & rest' & Hs' & Hw).
    rewrite Hs in Hs'. injection Hs' as <- _.
    rewrite separator_not_word in Hw by now left. discriminate.
  - intros init c Hs Hc. apply (Hrej True); [|exact I]. intros Hwf _.
    apply well_formed_email_tidy, tidy_last in Hwf as (init' & c' & Hs' & Hw).
    rewrite Hs in Hs'. apply app_inj_tail in Hs' as [_ <-].
    rewrite separator_not_word in Hw by now left. discriminate.
  - intros init c1 c2 Hs Hc. apply (Hrej True); [|exact I]. intros Hwf _.
    apply well_formed_email_last_two in Hwf as (init' & c1' & c2' & Hs' & H1 & H2).
    rewrite Hs in Hs'. apply app_inj_2 in Hs' as [_ [= <- <-]]; [|reflexivity].
    destruct Hc; congruence.
  - subst run. rewrite full_deployment_eq, updated_eq, reconciled_eq, validated_eq.
    destruct (loaded dataset_path st) as [[df|e] s] eqn:El;
      apply loaded_state in El; subst s; [rewrite H|]; reflexivity.
  - subst run. intros df Hl.
    rewrite full_deployment_eq, updated_eq, reconciled_eq, validated_eq, Hl, H. reflexivity.
Qed.

End Inputs.

(** ** The pipeline on the small instance *)

Module Runs.
Import Demo.

(** C4. The dataset has the columns [uid], [long], [lat] and the extractor
    returns a record with [uid] and [long] only: the run does not raise the
    [ValueError] of line 81, it raises the [ValueError] that pandas raises
    when two indexes of different lengths are compared, on line 80.  The
    files are as before the run. *)
Theorem column_count_mismatch_raises_in_pandas :
  let run :=
    full_deployment key image "data.csv" "u4" address (Some tt)
      112 7 (start [Returns short_record]) in
  fst run = Raises (Exn ValueError (Text "Lengths must match to compare")) /\
  fst run <> Raises (Exn ValueError Columns_do_not_match) /\
  files (snd run) = disk.
Proof.
  split; [vm_compute; reflexivity|].
  split; [vm_compute; discriminate | vm_compute; reflexivity].
Qed.


Lemma extraction_retry_policy_witness :
  1 <= 3 /\
  (forall i, i < 1 ->
     exists e, fst (nth_attempt i key image "u4" address tt
                      (start [Raises decode_error; Returns record])) = Raises e /\
               isinstance_JSONDecodeError e = true) /\
  perform_ocr key image "u4" address tt (start [Raises decode_error; Returns record]) =
    (Returns (Some record_frame),
     snd (nth_attempt 1 key image "u4" address tt
            (start [Raises decode_error; Returns record]))).
Proof.
  assert (H1 : 1 <= 3) by lia.
  assert (H2 : forall i, i < 1 ->
     exists e, fst (nth_attempt i key image "u4" address tt
                      (start [Raises decode_error; Returns record])) = Raises e /\
               isinstance_JSONDecodeError e = true).
  { intros i Hi. assert (i = 0) as -> by lia. exists decode_error. split; reflexivity. }
  split; [exact H1|]. split; [exact H2|].
  apply (extraction_retry_policy (Ext:=externals) key image "u4" address tt
           (start [Raises decode_error; Returns record]) 1 H1 H2).
  reflexivity.
Defined.


Lemma backup_before_write_witness :
  reconciled key image "data.csv" "u4" address (Some tt)
    (mkState disk_no_backup [Returns record] []) =
    (Returns (dataset, record_frame),
     snd (reconciled key image "data.csv" "u4" address (Some tt)
            (mkState disk_no_backup [Returns record] []))) /\
  shutil_copyfile disk_no_backup "data.csv" (backup_path_of "data.csv") =
    Raises (Exn OSError (Text "Is a directory")) /\
  full_deployment key image "data.csv" "u4" address (Some tt) 112 7
    (mkState disk_no_backup [Returns record] []) =
    (Raises (Exn RuntimeError (Failed_to_create_backup (Exn OSError (Text "Is a directory")))),
     snd (reconciled key image "data.csv" "u4" address (Some tt)
            (mkState disk_no_backup [Returns record] []))) /\
  files (snd (reconciled key image "data.csv" "u4" address (Some tt)
                (mkState disk_no_backup [Returns record] []))) = disk_no_backup.
Proof.
  assert (Hr : reconciled key image "data.csv" "u4" address (Some tt)
                 (mkState disk_no_backup [Returns record] []) =
    (Returns (dataset, record_frame),
     snd (reconciled key image "data.csv" "u4" address (Some tt)
            (mkState disk_no_backup [Returns record] [])))) by (vm_compute; reflexivity).
  assert (Hc : shutil_copyfile disk_no_backup "data.csv" (backup_path_of "data.csv") =
                 Raises (Exn OSError (Text "Is a directory"))) by (vm_compute; reflexivity).
  split; [exact Hr|]. split; [exact Hc|].
  exact (proj1 (proj2 (backup_before_write (Ext:=externals) key image "data.csv" "u4" address
                         (Some tt) 112 7 (mkState disk_no_backup [Returns record] []))
                  _ _ _ Hr) _ Hc).
Defined.

Lemma extraction_exhausted_witness :
  let script := [Raises decode_error; Raises decode_error; Raises decode_error;
                 Raises decode_error] in
  validated "data.csv" address (Some tt) (start script) = (Returns (dataset, tt), start script) /\
  (forall i, i <= 3 ->
     exists e, fst (nth_attempt i key image "u4" address tt (start script)) = Raises e /\
               isinstance_JSONDecodeError e = true) /\
  exists e,
    fst (nth_attempt 3 key image "u4" address tt (start script)) = Raises e /\
    full_deployment key image "data.csv" "u4" address (Some tt) 112 7 (start script) =
      (Raises (Exn RuntimeError (Failed_to_decode_JSON 4 e)),
       snd (nth_attempt 3 key image "u4" address tt (start script))) /\
    files (snd (full_deployment key image "data.csv" "u4" address (Some tt) 112 7
                  (start script))) = disk /\
    files (snd (full_deployment key image "data.csv" "u4" address (Some tt) 112 7
                  (start script))) !! "data.csv" = disk !! "data.csv" /\
    files (snd (full_deployment key image "data.csv" "u4" address (Some tt) 112 7
                  (start script))) !! "data.csv.backup" = disk !! "data.csv.backup".
Proof.
  intros script.
  assert (Hv : validated "data.csv" address (Some tt) (start script) =
                 (Returns (dataset, tt), start script)) by (vm_compute; reflexivity).
  assert (Hj : forall i, i <= 3 ->
     exists e, fst (nth_attempt i key image "u4" address tt (start script)) = Raises e /\
               isinstance_JSONDecodeError e = true).
  { intros i Hi. exists decode_error.
    destruct i as [|[|[|[|i]]]]; [split; reflexivity .. | lia]. }
  split; [exact Hv|]. split; [exact Hj|].
  exact (extraction_exhausted (Ext:=externals) key image "data.csv" "u4" address (Some tt) 112 7
           (start script) dataset tt Hv Hj).
Defined.

Lemma empty_extraction_not_retried_witness :
  let script := [Raises decode_error; Returns []; Returns record] in
  validated "data.csv" address (Some tt) (start script) = (Returns (dataset, tt), start script) /\
  1 <= 3 /\
  (forall i, i < 1 ->
     exists e, fst (nth_attempt i key image "u4" address tt (start script)) = Raises e /\
               isinstance_JSONDecodeError e = true) /\
  ocr_receipt image tt (world (after_attempts 1 key image "u4" address tt (start script))) =
    (Returns "struk of receipt.png", [Returns []; Returns record]) /\
  ved "struk of receipt.png" key "u4" address [Returns []; Returns record] =
    (Returns [], [Returns record]) /\
  truth ([] : list (list (string * cell))) = Returns false /\
  full_deployment key image "data.csv" "u4" address (Some tt) 112 7 (start script) =
    (Raises (Exn ValueError VED_returned_no_data),
     mkState disk [Returns record]
       (trace (after_attempts 1 key image "u4" address tt (start script)) ++
        [Call_ocr_receipt image tt (Returns "struk of receipt.png");
         Call_ved "struk of receipt.png" key "u4" address (Returns [])])).
Proof.
  intros script.
  assert (Hv : validated "data.csv" address (Some tt) (start script) =
                 (Returns (dataset, tt), start script)) by (vm_compute; reflexivity).
  assert (Hk : 1 <= 3) by lia.
  assert (Hj : forall i, i < 1 ->
     exists e, fst (nth_attempt i key image "u4" address tt (start script)) = Raises e /\
               isinstance_JSONDecodeError e = true).
  { intros i Hi. assert (i = 0) as -> by lia. exists decode_error. split; reflexivity. }
  assert (Ho : ocr_receipt image tt
                 (world (after_attempts 1 key image "u4" address tt (start script))) =
               (Returns "struk of receipt.png", [Returns []; Returns record]))
    by reflexivity.
  assert (Hd : ved "struk of receipt.png" key "u4" address [Returns []; Returns record] =
               (Returns [], [Returns record])) by reflexivity.
  assert (Ht : truth ([] : list (list (string * cell))) = Returns false) by reflexivity.
  repeat (split; [assumption|]).
  exact (empty_extraction_not_retried (Ext:=externals) key image "data.csv" "u4" address
           (Some tt) 112 7 (start script) dataset tt 1 _ _ _ _ Hv Hk Hj Ho Hd Ht).
Defined.

Lemma recommendation_failure_witness :
  let st := start [Returns record] in
  let s3 := snd (updated key image "data.csv" "" address (Some tt) st) in
  updated key image "data.csv" "" address (Some tt) st = (Returns tt, s3) /\
  pr (files s3) "data.csv" "" (world s3) =
    (Raises (Exn OtherException (Text "unknown user")), []) /\
  full_deployment key image "data.csv" "" address (Some tt) 112 7 st =
    (Raises (Exn RuntimeError
       (Failed_to_generate_recommendations (Exn OtherException (Text "unknown user")))),
     mkState (files s3) []
       (trace s3 ++ [Call_pr "data.csv" "" (Raises (Exn OtherException (Text "unknown user")))])).
Proof.
  intros st s3.
  assert (Hu : updated key image "data.csv" "" address (Some tt) st = (Returns tt, s3))
    by (vm_compute; reflexivity).
  assert (Hp : pr (files s3) "data.csv" "" (world s3) =
                 (Raises (Exn OtherException (Text "unknown user")), []))
    by (vm_compute; reflexivity).
  split; [exact Hu|]. split; [exact Hp|].
  exact (proj1 (recommendation_failure (Ext:=externals) key image "data.csv" "" address
                  (Some tt) 112 7 st s3 Hu)
           _ _ Hp).
Defined.


Lemma email_validation_witness :
  re_fullmatch email_regex "user..name@mail.example" = false /\
  loaded "data.csv" (start [Returns record]) = (Returns dataset, start [Returns record]) /\
  snd (full_deployment key image "data.csv" "u4" "user..name@mail.example" (Some tt) 112 7
         (start [Returns record])) = start [Returns record] /\
  fst (full_deployment key image "data.csv" "u4" "user..name@mail.example" (Some tt) 112 7
         (start [Returns record])) = Raises (Exn ValueError Email_is_not_valid).
Proof.
  assert (Hm : re_fullmatch email_regex "user..name@mail.example" = false)
    by (vm_compute; reflexivity).
  assert (Hl : loaded "data.csv" (start [Returns record]) =
                 (Returns dataset, start [Returns record])) by (vm_compute; reflexivity).
  split; [exact Hm|]. split; [exact Hl|].
  destruct (proj2 (proj2 (proj2 (proj2 (proj2 (proj2 (proj2
              (email_validation (Ext:=externals) key image "data.csv" "u4"
                 "user..name@mail.example" (Some tt) 112 7
                 (start [Returns record])))))))) Hm) as [Hs Hr].
  split; [exact Hs | exact (Hr _ Hl)].
Defined.

Lemma dataset_checks_come_first_witness :
  disk !! "missing.csv" = None /\
  re_fullmatch email_regex "not-an-email" = false /\
  full_deployment key image "missing.csv" "u4" "not-an-email" None 112 7 (start []) =
    (Raises (Exn FileNotFoundError (Dataset_file_not_found "missing.csv")), start []).
Proof.
  assert (Hn : files (start []) !! "missing.csv" = None) by (vm_compute; reflexivity).
  split; [exact Hn|]. split; [vm_compute; reflexivity|].
  exact (proj1 (proj2 (dataset_checks_come_first (Ext:=externals) key image "missing.csv"
                         "u4" "not-an-email" None 112 7 (start []))) Hn).
Defined.

End Runs.

(** ** More of what a run does *)

Section Further.
Context `{Ext : Externals}.

Lemma validate_dataset_Returns (df : DataFrame) st r st' :
  validate_dataset df st = (Returns r, st') -> valid_dataset df.
Proof.
  rewrite validate_dataset_eq.
  destruct (df_empty df) eqn:Ee; [discriminate|].
  destruct (bool_decide _) eqn:Es; [|discriminate].
  apply bool_decide_eq_true_1 in Es.
  assert (Hreq : forall c, c ∈ required_columns -> In c (columns df)).
  { intros c Hc. apply list_elem_of_In. specialize (Es c Hc).
    now apply elem_of_list_to_set in Es. }
  assert (Hl : forall l, In l (elements required_columns) -> In l (columns df))
    by (intros l Hl; apply Hreq; exact (proj1 (required_columns_elements l) Hl)).
  assert (Hin : forall c, c ∈ required_columns -> In c (elements required_columns))
    by (intros c Hc; exact (proj2 (required_columns_elements c) Hc)).
  revert Hl Hin. generalize (elements required_columns). intros labels Hl Hin.
  rewrite getitem_Returns by assumption.
  destruct (series_any _) eqn:Ea; [discriminate|]. intros _.
  split; [|split; [exact Hreq|]].
  - unfold df_empty in Ee. destruct (rows df); [|discriminate].
    simpl in Ee. now rewrite orb_true_r in Ee.
  - intros row c Hrow Hc Hnull.
    assert (Ht : series_any (frame_any (isnull
              (mkFrame labels (map (fun row => map (cell_at (columns df) row) labels)
                                 (rows df))))) = true)
      by (apply any_isnull_columns; exists row, c; auto).
    congruence.
Qed.

Lemma loaded_Returns p st df st' :
  loaded p st = (Returns df, st') ->
  valid_dataset df /\
  exists w content, files st !! p = Some (File w content) /\ csv_parse content = Returns df.
Proof.
  rewrite loaded_eq, load_dataset_eq.
  destruct (files st !! p) as [[|w content]|]; try discriminate.
  destruct (csv_parse content) as [d|] eqn:Ep; [|discriminate].
  destruct (validate_dataset d st) as [[[]|] s] eqn:Ev; [|discriminate].
  intros [= <- _]. split; [eapply validate_dataset_Returns; eauto|]. eauto.
Qed.

Lemma reconciled_files key test p uid email model st :
  files (snd (reconciled key test p uid email model st)) = files st.
Proof.
  rewrite reconciled_eq.
  destruct (validated p email model st) as [[[df m]|e] s] eqn:Ev;
    apply validated_state in Ev; subst s; [|reflexivity].
  pose proof (perform_ocr_files key test uid email m st) as Hf.
  destruct (perform_ocr key test uid email m st) as [[d|e] s']; [|exact Hf].
  rewrite validate_new_data_eq. simpl in Hf.
  destruct d as [d|]; [destruct (index_eq _ _); [destruct (py_all _)|]|]; exact Hf.
Qed.

(** A run that returns has gone through every statement. *)
Lemma full_deployment_Returns key test p uid email model lon lat st rec st' :
  full_deployment key test p uid email model lon lat st = (Returns rec, st') ->
  exists s3 test_rec w w',
    updated key test p uid email model st = (Returns tt, s3) /\
    pr (files s3) p uid (world s3) = (Returns test_rec, w) /\
    cc (files s3) p uid test_rec lon lat w = (Returns rec, w') /\
    st' = mkState (files s3) w'
            (trace s3 ++ [Call_pr p uid (Returns test_rec);
                          Call_cc p uid test_rec lon lat (Returns rec)]).
Proof.
  rewrite full_deployment_eq.
  destruct (updated key test p uid email model st) as [[[]|e] s3]; [|discriminate].
  rewrite generate_recommendations_eq.
  destruct (pr (files s3) p uid (world s3)) as [[test_rec|e] w] eqn:Epr; [|discriminate].
  destruct (cc (files s3) p uid test_rec lon lat w) as [[end_rec|e] w'] eqn:Ecc;
    [|discriminate].
  intros [= <- <-]. exists s3, test_rec, w, w'. auto.
Qed.

(** The files a run that returns leaves. *)
Lemma full_deployment_Returns_files key test p uid email model lon lat st rec st' :
  full_deployment key test p uid email model lon lat st = (Returns rec, st') ->
  exists w content df data s1,
    files st !! p = Some (File w content) /\
    csv_parse content = Returns df /\
    reconciled key test p uid email model st = (Returns (df, data), s1) /\
    columns data = columns df /\
    files st' =
      <[p := File true (csv_format (mkFrame (columns df) (rows df ++ rows data)))]>
        (<[backup_path_of p := File true content]> (files st)).
Proof.
  intros H. apply full_deployment_Returns in H as (s3 & test_rec & w0 & w' & Hu & _ & _ & ->).
  apply updated_Returns in Hu as (w & content & df & data & s1 & Hw & Hp & Hr & Hf & _).
  destruct (reconciled_Returns _ _ _ _ _ _ _ _ _ _ Hr) as (m & _ & _ & Hc & _).
  exists w, content, df, data, s1. auto.
Qed.

(** X1. When the dataset file is read-only, a run that reaches the append
    has made the backup and then fails to write: it raises the
    [RuntimeError] of line 97 that carries the refusal, the backup file
    holds the content of the dataset file, the dataset file is as it was and
    no recommender is called. *)
Theorem save_failure_keeps_backup key_path test_path dataset_path uid email model lon lat
    st df data s1 content files1 :
  reconciled key_path test_path dataset_path uid email model st = (Returns (df, data), s1) ->
  files st !! dataset_path = Some (File false content) ->
  shutil_copyfile (files st) dataset_path (backup_path_of dataset_path) = Returns files1 ->
  full_deployment key_path test_path dataset_path uid email model lon lat st =
    (Raises (Exn RuntimeError
       (Failed_to_save_updated_dataset (Exn OSError (Text "Permission denied")))),
     mkState files1 (world s1) (trace s1)) /\
  files1 !! backup_path_of dataset_path = Some (File true content) /\
  files1 !! dataset_path = Some (File false content).
Proof.
  intros Hr Hw Hc.
  pose proof (reconciled_files key_path test_path dataset_path uid email model st) as Hf.
  rewrite Hr in Hf. simpl in Hf.
  rewrite full_deployment_eq, updated_eq, Hr, backup_dataset_eq, Hf, Hc.
  apply copyfile_backup in Hc as (w' & content' & Hw' & ->).
  rewrite Hw in Hw'. injection Hw' as <- <-.
  assert (Hd : (<[backup_path_of dataset_path := File true content]> (files st))
                 !! dataset_path = Some (File false content))
    by (rewrite lookup_insert_ne by apply backup_path_neq; exact Hw).
  rewrite append_and_save_eq. simpl files. unfold write_file. rewrite Hd.
  split; [reflexivity|]. split; [apply lookup_insert_eq | reflexivity].
Qed.

(** X2. A run returns exactly when the dataset file has been rewritten and
    both recommenders return.  What it returns is the result of the
    proximity recommender, which was called last, after the product
    recommender, on the files the append left, with the dataset path, the
    [uid], the product list the product recommender returned and the
    [lon], [lat] of the caller. *)
Theorem run_returns_the_proximity_result key_path test_path dataset_path uid email model
    lon lat st rec st' :
  full_deployment key_path test_path dataset_path uid email model lon lat st
    = (Returns rec, st') <->
  exists s3 test_rec w w',
    updated key_path test_path dataset_path uid email model st = (Returns tt, s3) /\
    pr (files s3) dataset_path uid (world s3) = (Returns test_rec, w) /\
    cc (files s3) dataset_path uid test_rec lon lat w = (Returns rec, w') /\
    st' = mkState (files s3) w'
            (trace s3 ++ [Call_pr dataset_path uid (Returns test_rec);
                          Call_cc dataset_path uid test_rec lon lat (Returns rec)]).
Proof.
  split; [apply full_deployment_Returns|].
  intros (s3 & test_rec & w & w' & Hu & Hpr & Hcc & ->).
  now rewrite full_deployment_eq, Hu, generate_recommendations_eq, Hpr, Hcc.
Qed.

(** X3. With a dataset that loads and an email that matches, a model that
    is [None] raises the [ValueError] of line 58 before anything else is
    done: no collaborator is called and no file is written. *)
Theorem missing_model_rejected key_path test_path dataset_path uid email lon lat st df :
  loaded dataset_path st = (Returns df, st) ->
  re_fullmatch email_regex email = true ->
  full_deployment key_path test_path dataset_path uid email None lon lat st =
    (Raises (Exn ValueError Model_parameter_required), st).
Proof.
  intros Hl Hm. apply full_deployment_validated_Raises.
  now rewrite validated_eq, Hl, Hm.
Qed.

(** X4. The loop of lines 65-77 never runs out: whatever the collaborators
    do, it ends with a record (the [break]) or with an exception, so that
    line 80 never reads [data] unbound. *)
Theorem loop_never_leaves_data_unbound key_path test_path uid email model st :
  (exists data s,
     perform_ocr key_path test_path uid email model st = (Returns (Some data), s)) \/
  (exists e s, perform_ocr key_path test_path uid email model st = (Raises e, s)).
Proof.
  pose proof (perform_ocr_bound key_path test_path uid email model st) as H.
  destruct (perform_ocr key_path test_path uid email model st) as [[[data|]|e] s]; eauto.
  now elim H.
Qed.

(** X5. Whatever the run and however it ends, the only paths whose file can
    differ afterwards are the dataset path and its backup path. *)
Theorem only_dataset_and_backup_written key_path test_path dataset_path uid email model
    lon lat st q :
  q <> dataset_path -> q <> backup_path_of dataset_path ->
  files (snd (full_deployment key_path test_path dataset_path uid email model lon lat st)) !! q
    = files st !! q.
Proof.
  intros Hq Hb. rewrite full_deployment_eq, updated_eq.
  pose proof (reconciled_files key_path test_path dataset_path uid email model st) as Hf.
  destruct (reconciled _ _ _ _ _ _ _) as [[[df data]|e] s1]; simpl in Hf;
    [|simpl; now rewrite Hf].
  rewrite backup_dataset_eq, Hf.
  destruct (shutil_copyfile _ _ _) as [fs1|e] eqn:Ec; [|simpl; now rewrite Hf].
  apply copyfile_backup in Ec as (w & content & _ & ->).
  rewrite append_and_save_eq. simpl files.
  destruct (write_file _ _ _) as [fs2|e] eqn:Ew.
  - apply write_file_Returns in Ew. subst fs2.
    rewrite generate_recommendations_files. simpl.
    now rewrite !lookup_insert_ne by congruence.
  - simpl. now rewrite lookup_insert_ne by congruence.
Qed.

(** X6. What lines 34-49 let through is a valid dataset: if the load
    returns a frame, the path holds a file that parses to this frame, the
    frame has a row and the columns [uid], [long], [lat], and none of its
    rows is null in one of them. *)
Theorem loaded_dataset_is_valid dataset_path st df st' :
  loaded dataset_path st = (Returns df, st') ->
  st' = st /\
  valid_dataset df /\
  exists w content,
    files st !! dataset_path = Some (File w content) /\ csv_parse content = Returns df.
Proof.
  intros H. split; [eapply loaded_state; eauto|]. eapply loaded_Returns; eauto.
Qed.

End Further.

(** ** Calls that are not made *)

Section Quiet.
Context `{Ext : Externals}.
Variable kind : event -> bool.
Hypothesis kind_ocr : forall test_path model r, kind (Call_ocr_receipt test_path model r) = false.
Hypothesis kind_ved :
  forall struk key_path uid email r, kind (Call_ved struk key_path uid email r) = false.

Lemma attempt_body_other_calls key test uid email m st :
  calls kind (trace (snd (attempt_body key test uid email m st))) = calls kind (trace st).
Proof.
  rewrite attempt_body_state.
  destruct (ocr_receipt test m (world st)) as [[struk|e] w];
    [destruct (ved struk key uid email w)|]; simpl; rewrite calls_app;
    unfold calls at 2; simpl; rewrite ?kind_ocr, ?kind_ved; simpl; lia.
Qed.

Lemma for_attempt_other_calls attempts key test uid email m st :
  calls kind (trace (snd (for_attempt attempts key test uid email m st)))
    = calls kind (trace st).
Proof.
  revert st. induction attempts as [|a rest IH]; intros st; [reflexivity|].
  rewrite for_attempt_cons.
  pose proof (attempt_body_other_calls key test uid email m st) as Hc.
  destruct (attempt_body key test uid email m st) as [[data|e] s]; simpl in *; [exact Hc|].
  destruct (isinstance_JSONDecodeError e); [|exact Hc].
  destruct (a =? max_retries); [exact Hc|].
  now rewrite IH.
Qed.

Lemma reconciled_other_calls key test p uid email model st :
  calls kind (trace (snd (reconciled key test p uid email model st))) = calls kind (trace st).
Proof.
  rewrite reconciled_eq.
  destruct (validated p email model st) as [[[df m]|e] s] eqn:Ev;
    apply validated_state in Ev; subst s; [|reflexivity].
  pose proof (for_attempt_other_calls (seq 0 (max_retries + 1)) key test uid email m st) as Hc.
  fold (perform_ocr key test uid email m st) in Hc.
  destruct (perform_ocr key test uid email m st) as [[d|e] s']; [|exact Hc].
  rewrite validate_new_data_eq. simpl in Hc.
  destruct d as [d|]; [destruct (index_eq _ _); [destruct (py_all _)|]|]; exact Hc.
Qed.

Lemma updated_other_calls key test p uid email model st :
  calls kind (trace (snd (updated key test p uid email model st))) = calls kind (trace st).
Proof.
  rewrite updated_eq.
  pose proof (reconciled_other_calls key test p uid email model st) as Hc.
  destruct (reconciled key test p uid email model st) as [[[df data]|e] s1]; simpl in Hc;
    [|exact Hc].
  rewrite backup_dataset_eq.
  destruct (shutil_copyfile _ _ _); [|exact Hc].
  rewrite append_and_save_eq. simpl.
  destruct (write_file _ _ _); exact Hc.
Qed.

End Quiet.

Section Composition.
Context `{Ext : Externals}.

Lemma index_eq_refl cols :
  exists same, index_eq cols cols = Returns same /\ py_all same = true.
Proof.
  unfold index_eq. rewrite Nat.eqb_refl. eexists. split; [reflexivity|].
  unfold py_all. apply forallb_forall. intros b Hb.
  apply in_map_iff in Hb. destruct Hb as ([x y] & <- & Hin). simpl.
  assert (x = y) as ->; [|apply String.eqb_refl].
  clear -Hin. induction cols as [|c cols IH]; simpl in Hin; [tauto|].
  destruct Hin as [Heq|Hin]; [congruence | auto].
Qed.

(** The dataset of a run that got through line 81 is valid. *)
Lemma reconciled_valid key test p uid email model st df data s1 :
  reconciled key test p uid email model st = (Returns (df, data), s1) ->
  valid_dataset df /\ columns data = columns df.
Proof.
  intros Hr. apply reconciled_Returns in Hr as (m & Hv & _ & Hc & _).
  apply validated_Returns in Hv as (_ & _ & _ & Hl & _).
  apply loaded_Returns in Hl as [Hvalid _]. auto.
Qed.

(** X7. No recommendation without an update: a run whose statements up to
    line 97 raise ends with that exception and has called neither the
    product nor the proximity recommender, whatever the OCR model and the
    extractor did. *)
Theorem no_recommendation_without_update key_path test_path dataset_path uid email model
    lon lat st e s :
  updated key_path test_path dataset_path uid email model st = (Raises e, s) ->
  let run := full_deployment key_path test_path dataset_path uid email model lon lat st in
  run = (Raises e, s) /\
  calls is_pr_call (trace (snd run)) = calls is_pr_call (trace st) /\
  calls is_cc_call (trace (snd run)) = calls is_cc_call (trace st).
Proof.
  intros Hu run. subst run. rewrite full_deployment_eq, Hu. split; [reflexivity|].
  pose proof (updated_other_calls is_pr_call (fun _ _ _ => eq_refl) (fun _ _ _ _ _ => eq_refl)
                key_path test_path dataset_path uid email model st) as Hp.
  pose proof (updated_other_calls is_cc_call (fun _ _ _ => eq_refl) (fun _ _ _ _ _ => eq_refl)
                key_path test_path dataset_path uid email model st) as Hc.
  rewrite Hu in Hp, Hc. auto.
Qed.

(** X8. The check of lines 80-81 by design: a record with the very columns
    of the dataset passes; a record with as many columns as the dataset but
    another name or another order raises the [ValueError] of line 81, and
    no file has changed. *)
Theorem reconciliation_same_count key_path test_path dataset_path uid email model lon lat
    st df m data s1 :
  validated dataset_path email model st = (Returns (df, m), st) ->
  perform_ocr key_path test_path uid email m st = (Returns (Some data), s1) ->
  length (columns df) = length (columns data) ->
  (columns df = columns data ->
   reconciled key_path test_path dataset_path uid email model st = (Returns (df, data), s1)) /\
  (columns df <> columns data ->
   full_deployment key_path test_path dataset_path uid email model lon lat st =
     (Raises (Exn ValueError Columns_do_not_match), s1)) /\
  files s1 = files st.
Proof.
  intros Hv Hp Hlen. split; [|split].
  - intros Hc. rewrite reconciled_eq, Hv, Hp, validate_new_data_eq, Hc.
    destruct (index_eq_refl (columns data)) as (same & -> & ->). reflexivity.
  - intros Hne.
    exact (proj1 (columns_differ_same_count key_path test_path dataset_path uid email model
                    lon lat st df m data s1 Hv Hp Hlen Hne)).
  - pose proof (perform_ocr_files key_path test_path uid email m st) as Hf.
    now rewrite Hp in Hf.
Qed.

(** X9. What a run wrote loads again: after a run that returns, when
    pandas reads back the frame it wrote and no row of the record is null
    under [uid], [long] or [lat], lines 34-49 of a next run accept the
    dataset file and give the dataset with the record's rows appended. *)
Theorem appended_dataset_loads_again key_path test_path dataset_path uid email model lon lat
    st rec st' df data s1 :
  full_deployment key_path test_path dataset_path uid email model lon lat st
    = (Returns rec, st') ->
  reconciled key_path test_path dataset_path uid email model st = (Returns (df, data), s1) ->
  csv_parse (csv_format (mkFrame (columns df) (rows df ++ rows data)))
    = Returns (mkFrame (columns df) (rows df ++ rows data)) ->
  (forall row c, In row (rows data) -> c ∈ required_columns ->
                 cell_at (columns data) row c <> None) ->
  loaded dataset_path st' = (Returns (mkFrame (columns df) (rows df ++ rows data)), st').
Proof.
  intros Hrun Hr Hround Hnn.
  apply full_deployment_Returns_files in Hrun
    as (w & content & df' & data' & s1' & _ & _ & Hr' & _ & Hf).
  rewrite Hr in Hr'. injection Hr' as <- <- <-.
  destruct (reconciled_valid _ _ _ _ _ _ _ _ _ _ Hr) as [(Hrows & Hreq & Hdf) Hc].
  rewrite loaded_eq, load_dataset_eq, Hf, lookup_insert_eq, Hround.
  rewrite validate_dataset_valid; [reflexivity|].
  split; [|split]; simpl.
  - destruct (rows df); [congruence | discriminate].
  - exact Hreq.
  - intros row c Hrow Hcr. apply in_app_or in Hrow as [Hrow|Hrow]; [now apply Hdf|].
    rewrite <- Hc. now apply Hnn.
Qed.

(** X10. Nothing checks the cells of the record: a run whose record has a
    row that is null under [uid], [long] or [lat] appends it all the same,
    and when it returns, every next run on this dataset path, whatever its
    other arguments, raises the [ValueError] of line 49 and does nothing
    (pandas reading back the frame it wrote). *)
Theorem null_in_record_breaks_next_run key_path test_path dataset_path uid email model lon lat
    st rec st' df data s1 :
  full_deployment key_path test_path dataset_path uid email model lon lat st
    = (Returns rec, st') ->
  reconciled key_path test_path dataset_path uid email model st = (Returns (df, data), s1) ->
  csv_parse (csv_format (mkFrame (columns df) (rows df ++ rows data)))
    = Returns (mkFrame (columns df) (rows df ++ rows data)) ->
  (exists row c, In row (rows data) /\ c ∈ required_columns /\
                 cell_at (columns data) row c = None) ->
  forall key_path' test_path' uid' email' model' lon' lat',
    full_deployment key_path' test_path' dataset_path uid' email' model' lon' lat' st' =
      (Raises (Exn ValueError Dataset_contains_missing_values), st').
Proof.
  intros Hrun Hr Hround (row & c & Hrow & Hcr & Hnull) key' test' uid' email' model' lon' lat'.
  apply full_deployment_Returns_files in Hrun
    as (w & content & df' & data' & s1' & _ & _ & Hr' & _ & Hf).
  rewrite Hr in Hr'. injection Hr' as <- <- <-.
  destruct (reconciled_valid _ _ _ _ _ _ _ _ _ _ Hr) as [(Hrows & Hreq & Hdf) Hc].
  apply full_deployment_loaded_Raises.
  rewrite loaded_eq, load_dataset_eq, Hf, lookup_insert_eq, Hround.
  rewrite validate_dataset_nulls; [reflexivity| | |]; simpl.
  - destruct (rows df); [congruence | discriminate].
  - exact Hreq.
  - exists row, c. split; [apply in_or_app; now right|]. split; [exact Hcr|].
    now rewrite <- Hc.
Qed.

(** X11. The backup keeps one generation.  After two runs on the same
    dataset path that both return (pandas reading back the frame the first
    one wrote), the backup file holds what the first run wrote, not what
    was there before it, and the dataset file holds the rows of the dataset
    followed by the rows of the first record and then those of the second. *)
Theorem backup_keeps_one_generation dataset_path st st1 st2
    key1 test1 uid1 email1 model1 lon1 lat1 rec1
    key2 test2 uid2 email2 model2 lon2 lat2 rec2 df d1 sa df2 d2 sb :
  full_deployment key1 test1 dataset_path uid1 email1 model1 lon1 lat1 st = (Returns rec1, st1) ->
  full_deployment key2 test2 dataset_path uid2 email2 model2 lon2 lat2 st1
    = (Returns rec2, st2) ->
  reconciled key1 test1 dataset_path uid1 email1 model1 st = (Returns (df, d1), sa) ->
  reconciled key2 test2 dataset_path uid2 email2 model2 st1 = (Returns (df2, d2), sb) ->
  csv_parse (csv_format (mkFrame (columns df) (rows df ++ rows d1)))
    = Returns (mkFrame (columns df) (rows df ++ rows d1)) ->
  df2 = mkFrame (columns df) (rows df ++ rows d1) /\
  files st2 !! backup_path_of dataset_path =
    Some (File true (csv_format (mkFrame (columns df) (rows df ++ rows d1)))) /\
  files st2 !! dataset_path =
    Some (File true (csv_format (mkFrame (columns df) (rows df ++ rows d1 ++ rows d2)))).
Proof.
  intros Hrun1 Hrun2 Hr1 Hr2 Hround.
  apply full_deployment_Returns_files in Hrun1
    as (w & content & df' & d1' & sa' & _ & _ & Hr1' & _ & Hf1).
  rewrite Hr1 in Hr1'. injection Hr1' as <- <- <-.
  apply full_deployment_Returns_files in Hrun2
    as (w2 & content2 & df2' & d2' & sb' & Hw2 & Hp2 & Hr2' & _ & Hf2).
  rewrite Hr2 in Hr2'. injection Hr2' as <- <- <-.
  rewrite Hf1, lookup_insert_eq in Hw2. injection Hw2 as <- <-.
  rewrite Hround in Hp2. injection Hp2 as <-.
  split; [reflexivity|]. rewrite Hf2. simpl. split.
  - rewrite lookup_insert_ne by (apply not_eq_sym, backup_path_neq).
    apply lookup_insert_eq.
  - rewrite lookup_insert_eq. now rewrite <- app_assoc.
Qed.

(** X12. The alphabet of an accepted email: every character is a letter,
    a digit, an underscore, a dot, a hyphen or the [@], and there is one
    [@] and no more.  So an email with any other character in it, a [+] or
    a blank for one, is refused. *)
Theorem accepted_email_alphabet email :
  re_fullmatch email_regex email = true ->
  Forall (fun c => plain c \/ c = "@"%char) (list_ascii_of_string email) /\
  exists local_part rest,
    list_ascii_of_string email = local_part ++ "@"%char :: rest /\
    ~ In "@"%char local_part /\ ~ In "@"%char rest.
Proof.
  intros H. apply re_fullmatch_email in H as (l & d & t & -> & Hl & Hd & Ht).
  apply segments_plain in Hl, Hd. apply dot_labels_plain in Ht.
  assert (Hrest : Forall plain (d ++ t)) by (apply Forall_app; auto).
  split.
  - apply Forall_app. split; [|constructor; [now right|]];
      (eapply Forall_impl; [eassumption|]; intros c Hc; now left).
  - exists l, (d ++ t). split; [reflexivity|]. split; now apply plain_no_at.
Qed.

Lemma after_attempts_ocr_calls n key test uid email m st :
  calls is_ocr_call (trace (after_attempts n key test uid email m st))
    = calls is_ocr_call (trace st) + n.
Proof.
  induction n as [|n IH]; simpl; [lia|].
  rewrite attempt_body_ocr_calls, IH. lia.
Qed.

(** X13. A record that comes on a retry is taken like one that comes at
    once: when [k <= 3] attempts ended in a [JSONDecodeError] and the next
    one gives a record with the columns of the dataset, the run reaches the
    backup with this record, after exactly [k + 1] calls of the OCR model,
    and the attempts that failed have left the files as they were. *)
Theorem record_after_retries key_path test_path dataset_path uid email model st df m k data :
  validated dataset_path email model st = (Returns (df, m), st) ->
  k <= 3 ->
  (forall i, i < k ->
     exists e, fst (nth_attempt i key_path test_path uid email m st) = Raises e /\
               isinstance_JSONDecodeError e = true) ->
  fst (nth_attempt k key_path test_path uid email m st) = Returns data ->
  columns df = columns data ->
  let s1 := snd (nth_attempt k key_path test_path uid email m st) in
  reconciled key_path test_path dataset_path uid email model st = (Returns (df, data), s1) /\
  calls is_ocr_call (trace s1) = calls is_ocr_call (trace st) + k + 1 /\
  files s1 = files st.
Proof.
  intros Hv Hk Hjson Hd Hc s1.
  assert (Hp : perform_ocr key_path test_path uid email m st = (Returns (Some data), s1)).
  { rewrite (perform_ocr_skip key_path test_path uid email m k st Hk Hjson).
    rewrite for_attempt_cons. subst s1.
    fold (nth_attempt k key_path test_path uid email m st).
    destruct (nth_attempt k key_path test_path uid email m st) as [r s].
    simpl in Hd. now subst r. }
  split; [|split].
  - rewrite reconciled_eq, Hv, Hp, validate_new_data_eq, Hc.
    destruct (index_eq_refl (columns data)) as (same & -> & ->). reflexivity.
  - subst s1. unfold nth_attempt.
    rewrite attempt_body_ocr_calls, after_attempts_ocr_calls. lia.
  - pose proof (perform_ocr_files key_path test_path uid email m st) as Hf.
    now rewrite Hp in Hf.
Qed.

End Composition.

(** ** More runs on the small instance *)

Module MoreRuns.
Import Demo Cases.

Lemma record_frame_not_null (data : DataFrame) :
  data = record_frame \/ data = second_record_frame ->
  forall row c, In row (rows data) -> c ∈ required_columns ->
                cell_at (columns data) row c <> None.
Proof.
  intros [-> | ->] row c [<-|[]] Hc;
    apply required_columns_cases in Hc as [->|[->| ->]]; discriminate.
Qed.

Lemma save_failure_keeps_backup_witness :
  let st := mkState readonly_disk [Returns record] [] in
  let s1 := snd (reconciled key image "data.csv" "u4" address (Some tt) st) in
  let files1 := <["data.csv.backup" := File true (format dataset)]> readonly_disk in
  reconciled key image "data.csv" "u4" address (Some tt) st
    = (Returns (dataset, record_frame), s1) /\
  files st !! "data.csv" = Some (File false (format dataset)) /\
  shutil_copyfile (files st) "data.csv" (backup_path_of "data.csv") = Returns files1 /\
  full_deployment key image "data.csv" "u4" address (Some tt) 112 7 st =
    (Raises (Exn RuntimeError
       (Failed_to_save_updated_dataset (Exn OSError (Text "Permission denied")))),
     mkState files1 (world s1) (trace s1)).
Proof.
  intros st s1 files1.
  assert (Hr : reconciled key image "data.csv" "u4" address (Some tt) st
                 = (Returns (dataset, record_frame), s1)) by (vm_compute; reflexivity).
  assert (Hw : files st !! "data.csv" = Some (File false (format dataset)))
    by (vm_compute; reflexivity).
  assert (Hc : shutil_copyfile (files st) "data.csv" (backup_path_of "data.csv")
                 = Returns files1) by (vm_compute; reflexivity).
  split; [exact Hr|]. split; [exact Hw|]. split; [exact Hc|].
  exact (proj1 (save_failure_keeps_backup (Ext:=externals) key image "data.csv" "u4" address
                  (Some tt) 112 7 st dataset record_frame s1 (format dataset) files1
                  Hr Hw Hc)).
Defined.

Lemma run_returns_the_proximity_result_witness :
  let st := start [Returns record] in
  let st' := snd (full_deployment key image "data.csv" "u4" address (Some tt) 112 7 st) in
  full_deployment key image "data.csv" "u4" address (Some tt) 112 7 st = (Returns ["u4"], st') /\
  exists s3 test_rec w w',
    updated key image "data.csv" "u4" address (Some tt) st = (Returns tt, s3) /\
    pr (files s3) "data.csv" "u4" (world s3) = (Returns test_rec, w) /\
    cc (files s3) "data.csv" "u4" test_rec 112 7 w = (Returns ["u4"], w') /\
    st' = mkState (files s3) w'
            (trace s3 ++ [Call_pr "data.csv" "u4" (Returns test_rec);
                          Call_cc "data.csv" "u4" test_rec 112 7 (Returns ["u4"])]).
Proof.
  intros st st'.
  assert (H : full_deployment key image "data.csv" "u4" address (Some tt) 112 7 st
                = (Returns ["u4"], st')) by (vm_compute; reflexivity).
  split; [exact H|].
  exact (proj1 (run_returns_the_proximity_result (Ext:=externals) key image "data.csv" "u4"
                  address (Some tt) 112 7 st ["u4"] st') H).
Defined.

Lemma missing_model_rejected_witness :
  loaded "data.csv" (start [Returns record]) = (Returns dataset, start [Returns record]) /\
  re_fullmatch email_regex address = true /\
  full_deployment key image "data.csv" "u4" address None 112 7 (start [Returns record]) =
    (Raises (Exn ValueError Model_parameter_required), start [Returns record]).
Proof.
  assert (Hl : loaded "data.csv" (start [Returns record])
                 = (Returns dataset, start [Returns record])) by (vm_compute; reflexivity).
  assert (Hm : re_fullmatch email_regex address = true) by (vm_compute; reflexivity).
  split; [exact Hl|]. split; [exact Hm|].
  exact (missing_model_rejected (Ext:=externals) key image "data.csv" "u4" address 112 7
           (start [Returns record]) dataset Hl Hm).
Defined.

Lemma only_dataset_and_backup_written_witness :
  let st := mkState (<["notes.txt" := File true "keep"]> disk) [Returns record] [] in
  "notes.txt" <> "data.csv" /\
  "notes.txt" <> backup_path_of "data.csv" /\
  files (snd (full_deployment key image "data.csv" "u4" address (Some tt) 112 7 st))
    !! "notes.txt" = files st !! "notes.txt".
Proof.
  intros st.
  assert (H1 : "notes.txt" <> "data.csv") by discriminate.
  assert (H2 : "notes.txt" <> backup_path_of "data.csv") by (vm_compute; discriminate).
  split; [exact H1|]. split; [exact H2|].
  exact (only_dataset_and_backup_written (Ext:=externals) key image "data.csv" "u4" address
           (Some tt) 112 7 st "notes.txt" H1 H2).
Defined.

Lemma loaded_dataset_is_valid_witness :
  loaded "data.csv" (start []) = (Returns dataset, start []) /\
  start [] = start [] /\
  valid_dataset dataset /\
  exists w content,
    files (start []) !! "data.csv" = Some (File w content) /\ csv_parse content = Returns dataset.
Proof.
  assert (Hl : loaded "data.csv" (start []) = (Returns dataset, start []))
    by (vm_compute; reflexivity).
  split; [exact Hl|].
  exact (loaded_dataset_is_valid (Ext:=externals) "data.csv" (start []) dataset (start []) Hl).
Defined.

Lemma no_recommendation_without_update_witness :
  let st := start [Returns short_record] in
  let s := snd (updated key image "data.csv" "u4" address (Some tt) st) in
  updated key image "data.csv" "u4" address (Some tt) st =
    (Raises (Exn ValueError (Text "Lengths must match to compare")), s) /\
  full_deployment key image "data.csv" "u4" address (Some tt) 112 7 st =
    (Raises (Exn ValueError (Text "Lengths must match to compare")), s).
Proof.
  intros st s.
  assert (Hu : updated key image "data.csv" "u4" address (Some tt) st =
                 (Raises (Exn ValueError (Text "Lengths must match to compare")), s))
    by (vm_compute; reflexivity).
  split; [exact Hu|].
  exact (proj1 (no_recommendation_without_update (Ext:=externals) key image "data.csv" "u4"
                  address (Some tt) 112 7 st _ s Hu)).
Defined.

Lemma reconciliation_same_count_witness :
  let st := start [Returns swapped_record] in
  let s1 := snd (perform_ocr key image "u4" address tt st) in
  validated "data.csv" address (Some tt) st = (Returns (dataset, tt), st) /\
  perform_ocr key image "u4" address tt st = (Returns (Some swapped_record_frame), s1) /\
  length (columns dataset) = length (columns swapped_record_frame) /\
  columns dataset <> columns swapped_record_frame /\
  full_deployment key image "data.csv" "u4" address (Some tt) 112 7 st =
    (Raises (Exn ValueError Columns_do_not_match), s1).
Proof.
  intros st s1.
  assert (Hv : validated "data.csv" address (Some tt) st = (Returns (dataset, tt), st))
    by (vm_compute; reflexivity).
  assert (Hp : perform_ocr key image "u4" address tt st
                 = (Returns (Some swapped_record_frame), s1)) by (vm_compute; reflexivity).
  assert (Hlen : length (columns dataset) = length (columns swapped_record_frame))
    by reflexivity.
  assert (Hne : columns dataset <> columns swapped_record_frame) by discriminate.
  split; [exact Hv|]. split; [exact Hp|]. split; [exact Hlen|]. split; [exact Hne|].
  exact (proj1 (proj2 (reconciliation_same_count (Ext:=externals) key image "data.csv" "u4"
                         address (Some tt) 112 7 st dataset tt swapped_record_frame s1
                         Hv Hp Hlen)) Hne).
Defined.

Lemma appended_dataset_loads_again_witness :
  let st := start [Returns record] in
  let st' := snd (full_deployment key image "data.csv" "u4" address (Some tt) 112 7 st) in
  let s1 := snd (reconciled key image "data.csv" "u4" address (Some tt) st) in
  full_deployment key image "data.csv" "u4" address (Some tt) 112 7 st = (Returns ["u4"], st') /\
  reconciled key image "data.csv" "u4" address (Some tt) st
    = (Returns (dataset, record_frame), s1) /\
  parse (format (appended record_frame)) = Returns (appended record_frame) /\
  (forall row c, In row (rows record_frame) -> c ∈ required_columns ->
                 cell_at (columns record_frame) row c <> None) /\
  loaded "data.csv" st' = (Returns (appended record_frame), st').
Proof.
  intros st st' s1.
  assert (Hrun : full_deployment key image "data.csv" "u4" address (Some tt) 112 7 st
                   = (Returns ["u4"], st')) by (vm_compute; reflexivity).
  assert (Hr : reconciled key image "data.csv" "u4" address (Some tt) st
                 = (Returns (dataset, record_frame), s1)) by (vm_compute; reflexivity).
  assert (Hround : csv_parse (csv_format (appended record_frame))
                     = Returns (appended record_frame)) by (vm_compute; reflexivity).
  pose proof (record_frame_not_null record_frame (or_introl eq_refl)) as Hnn.
  split; [exact Hrun|]. split; [exact Hr|]. split; [exact Hround|]. split; [exact Hnn|].
  exact (appended_dataset_loads_again (Ext:=externals) key image "data.csv" "u4" address
           (Some tt) 112 7 st ["u4"] st' dataset record_frame s1 Hrun Hr Hround Hnn).
Defined.

Lemma null_in_record_breaks_next_run_witness :
  let st := start [Returns null_record; Returns record] in
  let st' := snd (full_deployment key image "data.csv" "u4" address (Some tt) 112 7 st) in
  let s1 := snd (reconciled key image "data.csv" "u4" address (Some tt) st) in
  full_deployment key image "data.csv" "u4" address (Some tt) 112 7 st = (Returns ["u4"], st') /\
  reconciled key image "data.csv" "u4" address (Some tt) st
    = (Returns (dataset, null_record_frame), s1) /\
  parse (format (appended null_record_frame)) = Returns (appended null_record_frame) /\
  (exists row c, In row (rows null_record_frame) /\ c ∈ required_columns /\
                 cell_at (columns null_record_frame) row c = None) /\
  full_deployment key image "data.csv" "u5" address (Some tt) 98 3 st' =
    (Raises (Exn ValueError Dataset_contains_missing_values), st').
Proof.
  intros st st' s1.
  assert (Hrun : full_deployment key image "data.csv" "u4" address (Some tt) 112 7 st
                   = (Returns ["u4"], st')) by (vm_compute; reflexivity).
  assert (Hr : reconciled key image "data.csv" "u4" address (Some tt) st
                 = (Returns (dataset, null_record_frame), s1)) by (vm_compute; reflexivity).
  assert (Hround : csv_parse (csv_format (appended null_record_frame))
                     = Returns (appended null_record_frame)) by (vm_compute; reflexivity).
  assert (Hnull : exists row c, In row (rows null_record_frame) /\ c ∈ required_columns /\
                                cell_at (columns null_record_frame) row c = None).
  { exists [None; Some "112.7"; Some "-7.3"], "uid".
    split; [now left|]. split; [exact uid_required | reflexivity]. }
  split; [exact Hrun|]. split; [exact Hr|]. split; [exact Hround|]. split; [exact Hnull|].
  exact (null_in_record_breaks_next_run (Ext:=externals) key image "data.csv" "u4" address
           (Some tt) 112 7 st ["u4"] st' dataset null_record_frame s1 Hrun Hr Hround Hnull
           key image "u5" address (Some tt) 98 3).
Defined.

Lemma backup_keeps_one_generation_witness :
  let st := start [Returns record; Returns second_record] in
  let st1 := snd (full_deployment key image "data.csv" "u4" address (Some tt) 112 7 st) in
  let st2 := snd (full_deployment key image "data.csv" "u5" address (Some tt) 98 3 st1) in
  let sa := snd (reconciled key image "data.csv" "u4" address (Some tt) st) in
  let sb := snd (reconciled key image "data.csv" "u5" address (Some tt) st1) in
  full_deployment key image "data.csv" "u4" address (Some tt) 112 7 st = (Returns ["u4"], st1) /\
  full_deployment key image "data.csv" "u5" address (Some tt) 98 3 st1 = (Returns ["u5"], st2) /\
  reconciled key image "data.csv" "u4" address (Some tt) st
    = (Returns (dataset, record_frame), sa) /\
  reconciled key image "data.csv" "u5" address (Some tt) st1
    = (Returns (appended record_frame, second_record_frame), sb) /\
  parse (format (appended record_frame)) = Returns (appended record_frame) /\
  files st2 !! "data.csv.backup" = Some (File true (format (appended record_frame))) /\
  files st2 !! "data.csv" =
    Some (File true (format (mkFrame (columns dataset)
                               (rows dataset ++ rows record_frame ++ rows second_record_frame)))).
Proof.
  intros st st1 st2 sa sb.
  assert (H1 : full_deployment key image "data.csv" "u4" address (Some tt) 112 7 st
                 = (Returns ["u4"], st1)) by (vm_compute; reflexivity).
  assert (H2 : full_deployment key image "data.csv" "u5" address (Some tt) 98 3 st1
                 = (Returns ["u5"], st2)) by (vm_compute; reflexivity).
  assert (Hr1 : reconciled key image "data.csv" "u4" address (Some tt) st
                  = (Returns (dataset, record_frame), sa)) by (vm_compute; reflexivity).
  assert (Hr2 : reconciled key image "data.csv" "u5" address (Some tt) st1
                  = (Returns (appended record_frame, second_record_frame), sb))
    by (vm_compute; reflexivity).
  assert (Hround : csv_parse (csv_format (appended record_frame))
                     = Returns (appended record_frame)) by (vm_compute; reflexivity).
  split; [exact H1|]. split; [exact H2|]. split; [exact Hr1|]. split; [exact Hr2|].
  split; [exact Hround|].
  exact (proj2 (backup_keeps_one_generation (Ext:=externals) "data.csv" st st1 st2
                  key image "u4" address (Some tt) 112 7 ["u4"]
                  key image "u5" address (Some tt) 98 3 ["u5"]
                  dataset record_frame sa (appended record_frame) second_record_frame sb
                  H1 H2 Hr1 Hr2 Hround)).
Defined.

Lemma accepted_email_alphabet_witness :
  re_fullmatch email_regex address = true /\
  Forall (fun c => plain c \/ c = "@"%char) (list_ascii_of_string address) /\
  exists local_part rest,
    list_ascii_of_string address = local_part ++ "@"%char :: rest /\
    ~ In "@"%char local_part /\ ~ In "@"%char rest.
Proof.
  assert (Hm : re_fullmatch email_regex address = true) by (vm_compute; reflexivity).
  split; [exact Hm|]. exact (accepted_email_alphabet address Hm).
Defined.

Lemma record_after_retries_witness :
  let st := start [Raises decode_error; Raises decode_error; Returns record] in
  let s1 := snd (nth_attempt 2 key image "u4" address tt st) in
  validated "data.csv" address (Some tt) st = (Returns (dataset, tt), st) /\
  2 <= 3 /\
  (forall i, i < 2 ->
     exists e, fst (nth_attempt i key image "u4" address tt st) = Raises e /\
               isinstance_JSONDecodeError e = true) /\
  fst (nth_attempt 2 key image "u4" address tt st) = Returns record_frame /\
  columns dataset = columns record_frame /\
  reconciled key image "data.csv" "u4" address (Some tt) st
    = (Returns (dataset, record_frame), s1) /\
  calls is_ocr_call (trace s1) = calls is_ocr_call (trace st) + 2 + 1 /\
  files s1 = files st.
Proof.
  intros st s1.
  assert (Hv : validated "data.csv" address (Some tt) st = (Returns (dataset, tt), st))
    by (vm_compute; reflexivity).
  assert (Hk : 2 <= 3) by lia.
  assert (Hj : forall i, i < 2 ->
     exists e, fst (nth_attempt i key image "u4" address tt st) = Raises e /\
               isinstance_JSONDecodeError e = true).
  { intros i Hi. exists decode_error.
    destruct i as [|[|i]]; [split; reflexivity .. | lia]. }
  assert (Hd : fst (nth_attempt 2 key image "u4" address tt st) = Returns record_frame)
    by (vm_compute; reflexivity).
  assert (Hc : columns dataset = columns record_frame) by reflexivity.
  split; [exact Hv|]. split; [exact Hk|]. split; [exact Hj|]. split; [exact Hd|].
  split; [exact Hc|].
  exact (record_after_retries (Ext:=externals) key image "data.csv" "u4" address (Some tt)
           st dataset tt 2 record_frame Hv Hk Hj Hd Hc).
Defined.

End MoreRuns.
